(** * Platform setup hooks of BL1 (HiKey960) and BL2 (LCB)

    A shallow embedding of

    - [plat/hisilicon/hikey960/hikey960_bl1_setup.c]
    - [plat/lcb/bl2_plat_setup.c]

    Both files are glue between the generic boot loader and the board:
    static records, memory-mapped register accesses and calls into
    drivers.  The embedding keeps three things explicit:

    - the statics of each translation unit, as fields of a state record;
    - every access to the outside (MMIO, console, log, driver calls), as
      an event appended to a trace;
    - what the hardware answers to an MMIO read, as an oracle indexed by
      the number of reads performed so far. *)

From stdpp Require Import base numbers list strings.

Local Open Scope Z_scope.

(** ** Machine integers

    The code is built for AArch64: [unsigned int] and [uint32_t] are 32
    bits wide, [size_t], [uint64_t], [unsigned long] and [uintptr_t] are
    64 bits wide.  Values are kept as [Z]; every store into a typed
    location wraps. *)

Definition uint32 (z : Z) : Z := z mod 2 ^ 32.
Definition uint64 (z : Z) : Z := z mod 2 ^ 64.

(** ** Constants of the headers

    [platform_def.h], [hi3660.h], [hikey960_def.h], [bl1_private.h],
    [tbbr_img_def.h] and the linker script are not part of the two
    files; the values they define are the fields of one record, and every
    function below takes them from there. *)

Record platform_def : Type := {
  (* trusted RAM seen by BL1 *)
  BL1_RO_BASE : Z;
  BL1_RO_LIMIT : Z;
  BL1_RW_BASE : Z;
  BL1_RW_SIZE : Z;
  (* linker symbols __BL1_RAM_START__ / __BL1_RAM_END__ *)
  BL1_RAM_BASE : Z;
  BL1_RAM_LIMIT : Z;
  (* linker symbols __COHERENT_RAM_START__ / __COHERENT_RAM_END__ *)
  BL1_COHERENT_RAM_BASE : Z;
  BL1_COHERENT_RAM_LIMIT : Z;
  (* console *)
  CONSOLE_BASE : Z;
  PL011_UART_CLK_IN_HZ : Z;
  PL011_BAUDRATE : Z;
  (* clock and reset generator *)
  CRG_REG_BASE : Z;
  CRG_CLKDIV3_OFFSET : Z;
  CRG_PERRSTDIS1_OFFSET : Z;
  CRG_PERRSTSTAT1_OFFSET : Z;
  CRG_PEREN1_OFFSET : Z;
  CRG_PERSTAT1_OFFSET : Z;
  PERI_TIMER9_BIT : Z;
  (* PMU *)
  PMU_SSI0_REG_BASE : Z;
  PMU_SSI0_CLK_TOP_CTRL7_OFFSET : Z;
  NP_XO_ABB_DIG : Z;
  (* timer and storage *)
  TIMER9_REG_BASE : Z;
  UFS_REG_BASE : Z;
  HIKEY960_UFS_DESC_BASE : Z;
  HIKEY960_UFS_DESC_SIZE : Z;
  UFS_FLAGS_SKIPINIT : Z;
  (* system controller *)
  SCTRL_REG_BASE : Z;
  SCTRL_BAK_DATA0_OFFSET : Z;
  (* image identifiers *)
  BL2_IMAGE_ID : Z;
  BL2U_IMAGE_ID : Z;
  INVALID_IMAGE_ID : Z;
  (* console of the LCB board *)
  PL011_UART0_BASE : Z;
  PL011_UART0_CLK_IN_HZ : Z
}.

(** ** Records of [bl_common.h] and [ufs.h] *)

(** [meminfo_t]: the extents of a stage's trusted RAM. *)
Record meminfo_t : Type := {
  total_base : Z;
  total_size : Z;
  free_base : Z;
  free_size : Z
}.

(** [ufs_params_t], the four members the code assigns. *)
Record ufs_params_t : Type := {
  reg_base : Z;
  desc_base : Z;
  desc_size : Z;
  flags : Z
}.

(** Modelled from the spec: [image_desc_t] is declared in [bl_common.h],
    which is not part of the two files; the spec gives it as an image
    identifier followed by metadata this module never looks at. *)
Record image_desc_t : Type := {
  image_id : Z;
  image_meta : Z
}.

(** ** Pointers

    A pointer is [NULL] or the address of a static object, of one of its
    members, or of one of its elements. *)

Inductive static_object : Type :=
| bl1_tzram_layout_obj
| bl1_tbbr_image_descs_obj
| bl2_tzram_layout_obj
| bl31_params_mem_obj.

Inductive member : Type :=
| bl31_params_member
| bl31_ep_info_member.

Inductive pointer : Type :=
| NULL
| AddrOf (obj : static_object)
| AddrOfMember (obj : static_object) (m : member)
| AddrOfElement (obj : static_object) (index : Z).

(** ** Events *)

Inductive log_level : Type := LOG_INFO | LOG_WARNING.

Inductive event : Type :=
| EvConsoleInit (base clk baud : Z)
| EvLog (level : log_level) (fmt : string) (args : list Z)
| EvMmioRead (addr value : Z)
| EvMmioWrite (addr value : Z)
| EvInitMmuEl3 (total_base total_size ro_start ro_limit coh_start coh_limit : Z)
| EvSp804TimerInit (base clk_mult clk_div : Z)
| EvUfsInit (ops : pointer) (params : ufs_params_t)
| EvIoSetup.

(** The part of the machine both stages see: memory that pointer
    arguments may refer to, the trace of events, and the number of MMIO
    reads performed so far. *)
Record world : Type := {
  ram : Z -> Z;
  trace : list event;
  reads : nat
}.

Definition emit (e : event) (w : world) : world :=
  {| ram := ram w; trace := trace w ++ [e]; reads := reads w |}.

(** What a 32-bit read of [addr] returns when it is the [n]-th read of
    the run. *)
Definition device : Type := nat -> Z -> Z.

(** ** Drivers and helpers outside the two files

    The console, the log macros, the MMIO accessors and the drivers are
    seen through the events they cause. *)

(** Modelled from the spec: [console_init] lives in the console driver;
    it initializes console output and touches nothing else. *)
Definition console_init (base clk baud : Z) (w : world) : world :=
  emit (EvConsoleInit (uint64 base) (uint32 clk) (uint32 baud)) w.

(** The log macros [INFO] and [WARN] of [debug.h]. *)
Definition INFO (fmt : string) (args : list Z) (w : world) : world :=
  emit (EvLog LOG_INFO fmt args) w.

Definition WARN (fmt : string) (args : list Z) (w : world) : world :=
  emit (EvLog LOG_WARNING fmt args) w.

Section Mmio.

Variable hw : device.

(** [mmio_read_32]: the device answers, the answer is a [uint32_t]. *)
Definition mmio_read_32 (addr : Z) (w : world) : Z * world :=
  let value := uint32 (hw (reads w) (uint64 addr)) in
  (value,
   {| ram := ram w;
      trace := trace w ++ [EvMmioRead (uint64 addr) value];
      reads := S (reads w) |}).

(** [mmio_write_32]. *)
Definition mmio_write_32 (addr value : Z) (w : world) : world :=
  emit (EvMmioWrite (uint64 addr) (uint32 value)) w.

(** [mmio_clrbits_32]: read, clear the given bits, write back. *)
Definition mmio_clrbits_32 (addr clear : Z) (w : world) : world :=
  let '(value, w1) := mmio_read_32 addr w in
  mmio_write_32 addr (Z.land value (Z.lnot clear)) w1.

End Mmio.

(** Modelled from the spec: [reserve_mem] is defined in the common
    loader code, not in the two files.  The spec describes it as the
    operation that shrinks the free region to exclude the given
    footprint.  The free region stays one range [free_base, free_base +
    free_size), so what lies on one side of the footprint is given up
    with it; the model keeps the larger side.  The two results stand
    for the updated [*free_base] and [*free_size]. *)
Definition reserve_mem (free_base free_size addr size : Z) : Z * Z :=
  let top_chunk_size := uint64 ((free_base + free_size) - (addr + size)) in
  let bottom_chunk_size := uint64 (addr - free_base) in
  if top_chunk_size <? bottom_chunk_size
  then (free_base, uint64 (free_size - (size + top_chunk_size)))
  else (uint64 (addr + size), uint64 (free_size - (size + bottom_chunk_size))).

(** * [hikey960_bl1_setup.c] *)

(** The [enum] at the top of the file. *)
Definition BOOT_MODE_RECOVERY : Z := 0.
Definition BOOT_MODE_NORMAL : Z := 1.
Definition BOOT_MODE_MASK : Z := 1.

(** The statics BL1 reads or writes here: [bl1_tzram_layout], defined in
    the file, and the descriptor table [bl1_tbbr_image_descs], defined
    by the trusted-boot code. *)
Record bl1_state : Type := {
  bl1_tzram_layout : meminfo_t;
  bl1_tbbr_image_descs : list image_desc_t;
  bl1_world : world
}.

Definition bl1_with_world (s : bl1_state) (w : world) : bl1_state :=
  {| bl1_tzram_layout := bl1_tzram_layout s;
     bl1_tbbr_image_descs := bl1_tbbr_image_descs s;
     bl1_world := w |}.

Definition bl1_with_layout (s : bl1_state) (l : meminfo_t) : bl1_state :=
  {| bl1_tzram_layout := l;
     bl1_tbbr_image_descs := bl1_tbbr_image_descs s;
     bl1_world := bl1_world s |}.

(** How a call ends: it returns a value, or [panic] stops the boot. *)
Inductive outcome (A : Type) : Type :=
| Returns (a : A) (s : bl1_state)
| Halts (s : bl1_state).

Arguments Returns {A} a s.
Arguments Halts {A} s.

(** What a lookup in the descriptor table ends with: a pointer (possibly
    [NULL]), or a read past the end of the array. *)
Inductive scan_result : Type :=
| ScanReturns (p : pointer)
| ScanOutOfBounds.

Section Bl1Setup.

Variable plat : platform_def.
Variable hw : device.

Definition bl1_plat_sec_mem_layout (s : bl1_state) : pointer * bl1_state :=
  (AddrOf bl1_tzram_layout_obj, s).

(** What [bl1_plat_sec_mem_layout]'s result points to. *)
Definition bl1_deref_meminfo (p : pointer) (s : bl1_state) : option meminfo_t :=
  match p with
  | AddrOf bl1_tzram_layout_obj => Some (bl1_tzram_layout s)
  | _ => None
  end.

Definition bl1_early_platform_setup (s : bl1_state) : bl1_state :=
  let bl1_size := uint64 (BL1_RAM_LIMIT plat - BL1_RAM_BASE plat) in
  (* Initialize the console to provide early debug support *)
  let s := bl1_with_world s
             (console_init (CONSOLE_BASE plat) (PL011_UART_CLK_IN_HZ plat)
                (PL011_BAUDRATE plat) (bl1_world s)) in
  (* Allow BL1 to see the whole Trusted RAM;
     calculate how much RAM BL1 is using and how much remains free *)
  let l := {| total_base := uint64 (BL1_RW_BASE plat);
              total_size := uint64 (BL1_RW_SIZE plat);
              free_base := uint64 (BL1_RW_BASE plat);
              free_size := uint64 (BL1_RW_SIZE plat) |} in
  let '(fb, fs) := reserve_mem (free_base l) (free_size l)
                     (uint64 (BL1_RAM_BASE plat)) bl1_size in
  let s := bl1_with_layout s
             {| total_base := total_base l;
                total_size := total_size l;
                free_base := fb;
                free_size := fs |} in
  bl1_with_world s
    (INFO "BL1: 0x%lx - 0x%lx [size = %lu]\n"
       [uint64 (BL1_RAM_BASE plat); uint64 (BL1_RAM_LIMIT plat); bl1_size]
       (bl1_world s)).


Definition hikey960_clk_init (w : world) : world :=
  mmio_write_32 (CRG_REG_BASE plat + CRG_CLKDIV3_OFFSET plat) 0xf0001000 w.

Definition hikey960_pmu_init (w : world) : world :=
  (* clear np_xo_abb_dig_START bit in PMIC_CLK_TOP_CTRL7 register *)
  mmio_clrbits_32 hw
    (PMU_SSI0_REG_BASE plat + PMU_SSI0_CLK_TOP_CTRL7_OFFSET plat)
    (NP_XO_ABB_DIG plat) w.

(** [do { data = mmio_read_32(addr); } while (again data);] with a
    bound on the number of reads: [None] when the loop is still running
    after [fuel] reads. *)
Fixpoint poll (again : Z -> bool) (addr : Z) (fuel : nat) (w : world)
  : option world :=
  match fuel with
  | O => None
  | S fuel' =>
      let '(data, w1) := mmio_read_32 hw addr w in
      if again data then poll again addr fuel' w1 else Some w1
  end.

(** The two loop conditions of [hikey960_timer_init]. *)
Definition timer9_in_reset (data : Z) : bool :=
  negb (Z.land data (PERI_TIMER9_BIT plat) =? 0).

Definition timer9_disabled (data : Z) : bool :=
  Z.land data (PERI_TIMER9_BIT plat) =? 0.

Definition sp804_timer_init (base clk_mult clk_div : Z) (w : world) : world :=
  emit (EvSp804TimerInit (uint64 base) (uint32 clk_mult) (uint32 clk_div)) w.

Definition hikey960_timer_init (fuel : nat) (w : world) : option world :=
  (* unreset TIMER9 *)
  let w := mmio_write_32 (CRG_REG_BASE plat + CRG_PERRSTDIS1_OFFSET plat)
             (PERI_TIMER9_BIT plat) w in
  match poll timer9_in_reset
          (CRG_REG_BASE plat + CRG_PERRSTSTAT1_OFFSET plat) fuel w with
  | None => None
  | Some w =>
      (* enable TIMER9 *)
      let w := mmio_write_32 (CRG_REG_BASE plat + CRG_PEREN1_OFFSET plat)
                 (PERI_TIMER9_BIT plat) w in
      match poll timer9_disabled
              (CRG_REG_BASE plat + CRG_PERSTAT1_OFFSET plat) fuel w with
      | None => None
      | Some w => Some (sp804_timer_init (TIMER9_REG_BASE plat) 15625 512 w)
      end
  end.

Definition hikey960_ufs_init (w : world) : world :=
  (* memset(&ufs_params, 0, sizeof(ufs_params)) *)
  let ufs_params := {| reg_base := 0; desc_base := 0; desc_size := 0;
                       flags := 0 |} in
  (* the four assignments *)
  let ufs_params :=
    {| reg_base := uint64 (UFS_REG_BASE plat);
       desc_base := uint64 (HIKEY960_UFS_DESC_BASE plat);
       desc_size := uint64 (HIKEY960_UFS_DESC_SIZE plat);
       flags := uint32 (UFS_FLAGS_SKIPINIT plat) |} in
  emit (EvUfsInit NULL ufs_params) w.

Definition hikey960_io_setup (w : world) : world :=
  emit EvIoSetup w.

Definition bl1_platform_setup (fuel : nat) (s : bl1_state) : option bl1_state :=
  let w := hikey960_clk_init (bl1_world s) in
  let w := hikey960_pmu_init w in
  match hikey960_timer_init fuel w with
  | None => None
  | Some w =>
      let w := hikey960_ufs_init w in
      let w := hikey960_io_setup w in
      Some (bl1_with_world s w)
  end.

(** The [switch] of [bl1_plat_get_next_image_id], on the value it is
    given to switch on. *)
Definition boot_mode_switch (selector mode : Z) (s : bl1_state) : outcome Z :=
  if selector =? BOOT_MODE_RECOVERY then
    Returns (uint32 (BL2U_IMAGE_ID plat)) s
  else if selector =? BOOT_MODE_NORMAL then
    Returns (uint32 (BL2_IMAGE_ID plat)) s
  else
    Halts (bl1_with_world s
             (WARN "Invalid boot mode is found:%d\n" [mode] (bl1_world s))).

Definition bl1_plat_get_next_image_id (s : bl1_state) : outcome Z :=
  let '(mode, w) :=
    mmio_read_32 hw (SCTRL_REG_BASE plat + SCTRL_BAK_DATA0_OFFSET plat)
      (bl1_world s) in
  boot_mode_switch (Z.land mode BOOT_MODE_MASK) mode (bl1_with_world s w).

(** The loop of [bl1_plat_get_image_desc], from a given [index];
    [None] when it is still running after [fuel] iterations. *)
Fixpoint image_desc_scan (fuel : nat) (index : Z) (image_id' : Z)
    (s : bl1_state) : option scan_result :=
  match fuel with
  | O => None
  | S fuel' =>
      match bl1_tbbr_image_descs s !! Z.to_nat index with
      | None => Some ScanOutOfBounds
      | Some desc =>
          if image_id desc =? uint32 (INVALID_IMAGE_ID plat) then
            Some (ScanReturns NULL)
          else if image_id desc =? image_id' then
            Some (ScanReturns (AddrOfElement bl1_tbbr_image_descs_obj index))
          else
            image_desc_scan fuel' (uint32 (index + 1)) image_id' s
      end
  end.

Definition bl1_plat_get_image_desc (fuel : nat) (image_id' : Z)
    (s : bl1_state) : option scan_result :=
  image_desc_scan fuel 0 (uint32 image_id') s.

Definition bl1_plat_set_ep_info (image_id' : Z) (ep_info : Z)
    (s : bl1_state) : bl1_state :=
  s.

End Bl1Setup.

(** * [bl2_plat_setup.c] *)

(** Bytes are values in [0, 256). *)
Definition uint8 (z : Z) : Z := z mod 2 ^ 8.

(** [memset(p, c, n)] on the bytes of the object [p] points to: the first
    [n] bytes become [(unsigned char)c].  Writing past the object is
    undefined; the model stops at its end. *)
Definition memset (object_bytes : list Z) (c : Z) (n : nat) : list Z :=
  replicate (n `min` length object_bytes)%nat (uint8 c) ++ drop n object_bytes.

(** The statics of the file: [bl2_tzram_layout] and [bl31_params_mem],
    the latter as the bytes of its object representation. *)
Record bl2_state : Type := {
  bl2_tzram_layout : meminfo_t;
  bl31_params_mem : list Z;
  bl2_world : world
}.

Definition bl2_with_world (s : bl2_state) (w : world) : bl2_state :=
  {| bl2_tzram_layout := bl2_tzram_layout s;
     bl31_params_mem := bl31_params_mem s;
     bl2_world := w |}.

Definition bl2_with_params_mem (s : bl2_state) (bytes : list Z) : bl2_state :=
  {| bl2_tzram_layout := bl2_tzram_layout s;
     bl31_params_mem := bytes;
     bl2_world := bl2_world s |}.

(** [sizeof(bl2_to_bl31_params_mem_t)]: the size of the static object of
    that type. *)
Definition sizeof_bl2_to_bl31_params_mem_t (s : bl2_state) : nat :=
  length (bl31_params_mem s).

(** What the rest of the loader does to the parameter block between
    calls: byte stores into [bl31_params_mem]. *)
Definition bl2_store_byte (s : bl2_state) (store : nat * Z) : bl2_state :=
  bl2_with_params_mem s (<[store.1 := uint8 store.2]> (bl31_params_mem s)).

Definition bl2_populate (stores : list (nat * Z)) (s : bl2_state) : bl2_state :=
  foldl bl2_store_byte s stores.

Section Bl2Setup.

Variable plat : platform_def.

Definition bl2_plat_sec_mem_layout (s : bl2_state) : pointer * bl2_state :=
  (AddrOf bl2_tzram_layout_obj, s).

Definition bl2_deref_meminfo (p : pointer) (s : bl2_state) : option meminfo_t :=
  match p with
  | AddrOf bl2_tzram_layout_obj => Some (bl2_tzram_layout s)
  | _ => None
  end.

Definition bl2_plat_get_bl31_params (s : bl2_state) : pointer * bl2_state :=
  (* Initialise the memory for all the arguments that needs to be
     passed to BL3-1 *)
  let s := bl2_with_params_mem s
             (memset (bl31_params_mem s) 0
                (sizeof_bl2_to_bl31_params_mem_t s)) in
  (* Assign memory for TF related information *)
  let bl2_to_bl31_params := AddrOfMember bl31_params_mem_obj bl31_params_member in
  (bl2_to_bl31_params, s).

Definition bl2_plat_get_bl31_ep_info (s : bl2_state) : pointer * bl2_state :=
  (AddrOfMember bl31_params_mem_obj bl31_ep_info_member, s).

(** [mem_layout] and the pointer parameters of the hooks below are
    addresses into [ram]. *)
Definition bl2_early_platform_setup (mem_layout : Z) (s : bl2_state)
  : bl2_state :=
  (* Initialize the console to provide early debug support *)
  bl2_with_world s
    (console_init (PL011_UART0_BASE plat) (PL011_UART0_CLK_IN_HZ plat)
       (PL011_BAUDRATE plat) (bl2_world s)).

Definition bl2_platform_setup (s : bl2_state) : bl2_state := s.

Definition bl2_plat_flush_bl31_params (s : bl2_state) : bl2_state := s.

Definition bl2_plat_arch_setup (s : bl2_state) : bl2_state := s.

Definition bl2_plat_get_bl30_meminfo (bl30_meminfo : Z) (s : bl2_state)
  : bl2_state := s.

Definition bl2_plat_handle_bl30 (bl30_image_info : Z) (s : bl2_state)
  : Z * bl2_state := (0, s).

Definition bl2_plat_set_bl31_ep_info (bl31_image_info bl31_ep_info : Z)
    (s : bl2_state) : bl2_state := s.

Definition bl2_plat_set_bl32_ep_info (bl32_image_info bl32_ep_info : Z)
    (s : bl2_state) : bl2_state := s.

Definition bl2_plat_set_bl33_ep_info (image bl33_ep_info : Z)
    (s : bl2_state) : bl2_state := s.

Definition bl2_plat_get_bl32_meminfo (bl32_meminfo : Z) (s : bl2_state)
  : bl2_state := s.

Definition bl2_plat_get_bl33_meminfo (bl33_meminfo : Z) (s : bl2_state)
  : bl2_state := s.

End Bl2Setup.

(** * Vocabulary of the statements *)

(** The descriptor table has its first sentinel, an entry whose
    [image_id] is [INVALID_IMAGE_ID], at index [n]. *)
Definition first_sentinel_at (plat : platform_def) (s : bl1_state) (n : nat)
  : Prop :=
  Z.of_nat n < 2 ^ 32
  /\ (exists d, bl1_tbbr_image_descs s !! n = Some d
                /\ image_id d = uint32 (INVALID_IMAGE_ID plat))
  /\ (forall (j : nat) (d : image_desc_t),
         (j < n)%nat ->
         bl1_tbbr_image_descs s !! j = Some d ->
         image_id d <> uint32 (INVALID_IMAGE_ID plat)).

(** Bit [PERI_TIMER9_BIT] of a value read from a status register. *)
Definition timer9_bit_set (plat : platform_def) (data : Z) : Prop :=
  Z.land (uint32 data) (PERI_TIMER9_BIT plat) <> 0.

(** [n] calls in a row of a function that returns a pointer: the
    pointers returned, in order, and the final state. *)
Fixpoint call_repeatedly {S : Type} (f : S -> pointer * S) (n : nat) (s : S)
  : list pointer * S :=
  match n with
  | O => ([], s)
  | S n' =>
      let '(p, s1) := f s in
      let '(ps, s2) := call_repeatedly f n' s1 in
      (p :: ps, s2)
  end.

(** Two states of BL2 that differ at most in the memory that pointer
    arguments refer to. *)
Definition bl2_same_but_ram (s1 s2 : bl2_state) : Prop :=
  bl2_tzram_layout s1 = bl2_tzram_layout s2
  /\ bl31_params_mem s1 = bl31_params_mem s2
  /\ trace (bl2_world s1) = trace (bl2_world s2)
  /\ reads (bl2_world s1) = reads (bl2_world s2).

(** The value a call returns, if it returns. *)
Definition returned {A : Type} (o : outcome A) : option A :=
  match o with
  | Returns a _ => Some a
  | Halts _ => None
  end.

(** ** A sample configuration

    Values in the style of the HiKey960 headers, used to run the
    definitions on concrete inputs. *)
Definition sample_platform_def : platform_def :=
  {| BL1_RO_BASE := 0x1AC00000;
     BL1_RO_LIMIT := 0x1AC10000;
     BL1_RW_BASE := 0x1AC10000;
     BL1_RW_SIZE := 0x00188000;
     BL1_RAM_BASE := 0x1AC10000;
     BL1_RAM_LIMIT := 0x1AC1C000;
     BL1_COHERENT_RAM_BASE := 0x1AC1B000;
     BL1_COHERENT_RAM_LIMIT := 0x1AC1C000;
     CONSOLE_BASE := 0xFFF32000;
     PL011_UART_CLK_IN_HZ := 19200000;
     PL011_BAUDRATE := 115200;
     CRG_REG_BASE := 0xFFF35000;
     CRG_CLKDIV3_OFFSET := 0x0B4;
     CRG_PERRSTDIS1_OFFSET := 0x088;
     CRG_PERRSTSTAT1_OFFSET := 0x08C;
     CRG_PEREN1_OFFSET := 0x010;
     CRG_PERSTAT1_OFFSET := 0x018;
     PERI_TIMER9_BIT := 2 ^ 22;
     PMU_SSI0_REG_BASE := 0xFFF34000;
     PMU_SSI0_CLK_TOP_CTRL7_OFFSET := 0x430;
     NP_XO_ABB_DIG := 2;
     TIMER9_REG_BASE := 0xE8A00000;
     UFS_REG_BASE := 0xFF3B0000;
     HIKEY960_UFS_DESC_BASE := 0x20000000;
     HIKEY960_UFS_DESC_SIZE := 0x00200000;
     UFS_FLAGS_SKIPINIT := 2;
     SCTRL_REG_BASE := 0xFFF0A000;
     SCTRL_BAK_DATA0_OFFSET := 0x40C;
     BL2_IMAGE_ID := 1;
     BL2U_IMAGE_ID := 21;
     INVALID_IMAGE_ID := 0xFFFFFFFF;
     PL011_UART0_BASE := 0xF8015000;
     PL011_UART0_CLK_IN_HZ := 19200000 |}.

Definition sample_world : world :=
  {| ram := fun _ => 0; trace := []; reads := 0 |}.

Definition sample_layout : meminfo_t :=
  {| total_base := 0; total_size := 0; free_base := 0; free_size := 0 |}.

(** A table of two images followed by the sentinel. *)
Definition sample_image_descs : list image_desc_t :=
  [ {| image_id := 1; image_meta := 0 |};
    {| image_id := 21; image_meta := 0 |};
    {| image_id := 0xFFFFFFFF; image_meta := 0 |} ].

Definition sample_bl1_state : bl1_state :=
  {| bl1_tzram_layout := sample_layout;
     bl1_tbbr_image_descs := sample_image_descs;
     bl1_world := sample_world |}.

Definition sample_bl2_state : bl2_state :=
  {| bl2_tzram_layout := sample_layout;
     bl31_params_mem := [0x12; 0x34; 0x56; 0x78];
     bl2_world := sample_world |}.

(** A device whose TIMER9 status bits settle after a few reads: the
    bit reads 1 during the first three reads, 0 at the fourth, and 1
    from then on. *)
Definition sample_device : device :=
  fun n _ => if (n =? 3)%nat then 0 else 2 ^ 22.

(** A device that keeps every status bit at 1. *)
Definition stuck_device : device := fun _ _ => 0xFFFFFFFF.

(** A device that holds every status bit at the timer's bit pattern,
    except at read [n], where it reads 0. *)
Definition late_device (plat : platform_def) (n : nat) : device :=
  fun t _ => if (t =? n)%nat then 0 else PERI_TIMER9_BIT plat.

(** The sample table followed by entries after its sentinel. *)
Definition sample_image_descs_with_tail : list image_desc_t :=
  sample_image_descs
  ++ [ {| image_id := 7; image_meta := 0 |};
       {| image_id := 21; image_meta := 1 |} ].

Definition sample_bl1_state_with_tail : bl1_state :=
  {| bl1_tzram_layout := sample_layout;
     bl1_tbbr_image_descs := sample_image_descs_with_tail;
     bl1_world := sample_world |}.

(** A table that lacks the sentinel. *)
Definition sample_bl1_state_no_sentinel : bl1_state :=
  {| bl1_tzram_layout := sample_layout;
     bl1_tbbr_image_descs := [ {| image_id := 1; image_meta := 0 |};
                               {| image_id := 21; image_meta := 0 |} ];
     bl1_world := sample_world |}.

(** The sample configuration with BL1's footprint moved to the given
    extents. *)
Definition with_bl1_ram (plat : platform_def) (base limit : Z) : platform_def :=
  {| BL1_RO_BASE := BL1_RO_BASE plat;
     BL1_RO_LIMIT := BL1_RO_LIMIT plat;
     BL1_RW_BASE := BL1_RW_BASE plat;
     BL1_RW_SIZE := BL1_RW_SIZE plat;
     BL1_RAM_BASE := base;
     BL1_RAM_LIMIT := limit;
     BL1_COHERENT_RAM_BASE := BL1_COHERENT_RAM_BASE plat;
     BL1_COHERENT_RAM_LIMIT := BL1_COHERENT_RAM_LIMIT plat;
     CONSOLE_BASE := CONSOLE_BASE plat;
     PL011_UART_CLK_IN_HZ := PL011_UART_CLK_IN_HZ plat;
     PL011_BAUDRATE := PL011_BAUDRATE plat;
     CRG_REG_BASE := CRG_REG_BASE plat;
     CRG_CLKDIV3_OFFSET := CRG_CLKDIV3_OFFSET plat;
     CRG_PERRSTDIS1_OFFSET := CRG_PERRSTDIS1_OFFSET plat;
     CRG_PERRSTSTAT1_OFFSET := CRG_PERRSTSTAT1_OFFSET plat;
     CRG_PEREN1_OFFSET := CRG_PEREN1_OFFSET plat;
     CRG_PERSTAT1_OFFSET := CRG_PERSTAT1_OFFSET plat;
     PERI_TIMER9_BIT := PERI_TIMER9_BIT plat;
     PMU_SSI0_REG_BASE := PMU_SSI0_REG_BASE plat;
     PMU_SSI0_CLK_TOP_CTRL7_OFFSET := PMU_SSI0_CLK_TOP_CTRL7_OFFSET plat;
     NP_XO_ABB_DIG := NP_XO_ABB_DIG plat;
     TIMER9_REG_BASE := TIMER9_REG_BASE plat;
     UFS_REG_BASE := UFS_REG_BASE plat;
     HIKEY960_UFS_DESC_BASE := HIKEY960_UFS_DESC_BASE plat;
     HIKEY960_UFS_DESC_SIZE := HIKEY960_UFS_DESC_SIZE plat;
     UFS_FLAGS_SKIPINIT := UFS_FLAGS_SKIPINIT plat;
     SCTRL_REG_BASE := SCTRL_REG_BASE plat;
     SCTRL_BAK_DATA0_OFFSET := SCTRL_BAK_DATA0_OFFSET plat;
     BL2_IMAGE_ID := BL2_IMAGE_ID plat;
     BL2U_IMAGE_ID := BL2U_IMAGE_ID plat;
     INVALID_IMAGE_ID := INVALID_IMAGE_ID plat;
     PL011_UART0_BASE := PL011_UART0_BASE plat;
     PL011_UART0_CLK_IN_HZ := PL011_UART0_CLK_IN_HZ plat |}.

(** BL1 linked 0x10000 above the bottom of the read-write region: free
    memory lies on both sides of its footprint. *)
Definition inside_platform_def : platform_def :=
  with_bl1_ram sample_platform_def 0x1AC20000 0x1AC2C000.

(** * Properties *)

(** ** Wrap-around *)

Lemma uint32_range z : 0 <= uint32 z < 2 ^ 32.
Proof. unfold uint32. apply Z.mod_pos_bound. lia. Qed.

Lemma uint64_range z : 0 <= uint64 z < 2 ^ 64.
Proof. unfold uint64. apply Z.mod_pos_bound. lia. Qed.

Lemma uint32_small z : 0 <= z < 2 ^ 32 -> uint32 z = z.
Proof. intros H. unfold uint32. apply Z.mod_small. exact H. Qed.

Lemma uint64_small z : 0 <= z < 2 ^ 64 -> uint64 z = z.
Proof. intros H. unfold uint64. apply Z.mod_small. exact H. Qed.

Lemma land_1_mod_2 z : Z.land z 1 = z mod 2.
Proof. change 1 with (Z.ones 1). rewrite Z.land_ones by lia. reflexivity. Qed.

Lemma land_1_cases z : Z.land z 1 = 0 \/ Z.land z 1 = 1.
Proof. rewrite land_1_mod_2. pose proof (Z.mod_pos_bound z 2). lia. Qed.

(** ** The next image to load *)

(** C1.  Whatever the boot-mode register holds, the value is masked to
    its low bit; [bl1_plat_get_next_image_id] returns [BL2U_IMAGE_ID] when
    that bit is 0 and [BL2_IMAGE_ID] when it is 1.  Given any other value
    to switch on, the [switch] logs a warning and halts instead of
    returning. *)
Theorem bl1_plat_get_next_image_id_classifies
    (plat : platform_def) (hw : device) (s : bl1_state) :
  let addr := SCTRL_REG_BASE plat + SCTRL_BAK_DATA0_OFFSET plat in
  let mode := uint32 (hw (reads (bl1_world s)) (uint64 addr)) in
  let s1 := bl1_with_world s (mmio_read_32 hw addr (bl1_world s)).2 in
  Z.land mode BOOT_MODE_MASK = mode mod 2
  /\ (mode mod 2 = 0 /\
        bl1_plat_get_next_image_id plat hw s
        = Returns (uint32 (BL2U_IMAGE_ID plat)) s1
      \/
      mode mod 2 = 1 /\
        bl1_plat_get_next_image_id plat hw s
        = Returns (uint32 (BL2_IMAGE_ID plat)) s1)
  /\ (forall (selector m : Z) (s' : bl1_state),
        selector <> 0 -> selector <> 1 ->
        exists halted,
          boot_mode_switch plat selector m s' = Halts halted
          /\ trace (bl1_world halted)
             = trace (bl1_world s')
               ++ [EvLog LOG_WARNING "Invalid boot mode is found:%d\n" [m]]
          /\ bl1_tzram_layout halted = bl1_tzram_layout s').
Proof.
  intros addr mode s1.
  assert (Hmask : Z.land mode BOOT_MODE_MASK = mode mod 2)
    by apply land_1_mod_2.
  split; [exact Hmask|]. split.
  - unfold bl1_plat_get_next_image_id, mmio_read_32; simpl.
    fold addr. fold mode. rewrite Hmask.
    unfold boot_mode_switch, BOOT_MODE_RECOVERY, BOOT_MODE_NORMAL.
    pose proof (Z.mod_pos_bound mode 2 ltac:(lia)) as Hb.
    destruct (Z.eqb_spec (mode mod 2) 0) as [H0|H0].
    + left. split; [exact H0|reflexivity].
    + destruct (Z.eqb_spec (mode mod 2) 1) as [H1|H1].
      * right. split; [exact H1|reflexivity].
      * lia.
  - intros selector m s' H0 H1.
    unfold boot_mode_switch, BOOT_MODE_RECOVERY, BOOT_MODE_NORMAL.
    destruct (Z.eqb_spec selector 0) as [E|_]; [contradiction|].
    destruct (Z.eqb_spec selector 1) as [E|_]; [contradiction|].
    eexists. split; [reflexivity|]. split; reflexivity.
Qed.

(** ** Reserving BL1's own footprint *)

Ltac unwrap64 :=
  repeat match goal with
         | |- context [uint64 ?x] => rewrite (uint64_small x) by lia
         end.

(** The layout record [bl1_early_platform_setup] leaves behind, when BL1
    starts at the bottom of the read-write region. *)
Lemma bl1_early_platform_setup_bottom (plat : platform_def) (s : bl1_state) :
  0 <= BL1_RW_BASE plat -> 0 <= BL1_RW_SIZE plat ->
  BL1_RW_BASE plat + BL1_RW_SIZE plat < 2 ^ 64 ->
  BL1_RAM_BASE plat = BL1_RW_BASE plat ->
  BL1_RAM_BASE plat <= BL1_RAM_LIMIT plat ->
  BL1_RAM_LIMIT plat <= BL1_RW_BASE plat + BL1_RW_SIZE plat ->
  bl1_tzram_layout (bl1_early_platform_setup plat s)
  = {| total_base := BL1_RW_BASE plat;
       total_size := BL1_RW_SIZE plat;
       free_base := BL1_RAM_LIMIT plat;
       free_size := BL1_RW_SIZE plat
                    - (BL1_RAM_LIMIT plat - BL1_RAM_BASE plat) |}.
Proof.
  intros Hb Hs Hend Hbase Hle Hin.
  unfold bl1_early_platform_setup, reserve_mem; simpl.
  unwrap64.
  destruct (Z.ltb_spec (BL1_RW_BASE plat + BL1_RW_SIZE plat
                        - (BL1_RAM_BASE plat
                           + (BL1_RAM_LIMIT plat - BL1_RAM_BASE plat)))
                       (BL1_RAM_BASE plat - BL1_RW_BASE plat)) as [Hlt|Hge];
    simpl.
  - lia.
  - f_equal; lia.
Qed.

(** The same when BL1 ends at the top of the read-write region and does
    not start at its bottom. *)
Lemma bl1_early_platform_setup_top (plat : platform_def) (s : bl1_state) :
  0 <= BL1_RW_BASE plat -> 0 <= BL1_RW_SIZE plat ->
  BL1_RW_BASE plat + BL1_RW_SIZE plat < 2 ^ 64 ->
  BL1_RW_BASE plat < BL1_RAM_BASE plat ->
  BL1_RAM_BASE plat <= BL1_RAM_LIMIT plat ->
  BL1_RAM_LIMIT plat = BL1_RW_BASE plat + BL1_RW_SIZE plat ->
  bl1_tzram_layout (bl1_early_platform_setup plat s)
  = {| total_base := BL1_RW_BASE plat;
       total_size := BL1_RW_SIZE plat;
       free_base := BL1_RW_BASE plat;
       free_size := BL1_RW_SIZE plat
                    - (BL1_RAM_LIMIT plat - BL1_RAM_BASE plat) |}.
Proof.
  intros Hb Hs Hend Hbase Hle Hin.
  unfold bl1_early_platform_setup, reserve_mem; simpl.
  unwrap64.
  destruct (Z.ltb_spec (BL1_RW_BASE plat + BL1_RW_SIZE plat
                        - (BL1_RAM_BASE plat
                           + (BL1_RAM_LIMIT plat - BL1_RAM_BASE plat)))
                       (BL1_RAM_BASE plat - BL1_RW_BASE plat)) as [Hlt|Hge];
    simpl.
  - f_equal; lia.
  - lia.
Qed.

(** Why the placement matters: when the footprint lies strictly inside
    the region, a free range that stays within the region and avoids the
    footprint is smaller than the region minus the footprint, whatever
    computes it. *)
Lemma no_exact_reservation_strictly_inside (l : meminfo_t) (base limit : Z) :
  total_base l < base -> base < limit ->
  limit < total_base l + total_size l ->
  total_base l <= free_base l ->
  free_base l + free_size l <= total_base l + total_size l ->
  (forall a : Z,
      free_base l <= a < free_base l + free_size l ->
      ~ (base <= a < limit)) ->
  free_size l < total_size l - (limit - base).
Proof.
  intros Hlo Hne Hhi Hfb Hfe Hdisjoint.
  pose proof (Hdisjoint base) as Hat_base.
  pose proof (Hdisjoint (free_base l)) as Hat_start.
  lia.
Qed.


(** ** Looking up an image descriptor *)

Section ImageDescScan.

Variable plat : platform_def.
Variable s : bl1_state.

(** The loop walks over entries that are neither the sentinel nor the
    query, one iteration each. *)
Lemma image_desc_scan_skip (q : Z) (m k fuel : nat) :
  Z.of_nat (k + m) < 2 ^ 32 ->
  (k + m <= length (bl1_tbbr_image_descs s))%nat ->
  (forall (j : nat) (d : image_desc_t),
      (k <= j < k + m)%nat ->
      bl1_tbbr_image_descs s !! j = Some d ->
      image_id d <> uint32 (INVALID_IMAGE_ID plat) /\ image_id d <> q) ->
  image_desc_scan plat (m + fuel) (Z.of_nat k) q s
  = image_desc_scan plat fuel (Z.of_nat (k + m)) q s.
Proof.
  revert k. induction m as [|m IH]; intros k Hrange Hlen Hskip.
  - rewrite Nat.add_0_r. reflexivity.
  - change (S m + fuel)%nat with (S (m + fuel)).
    cbn [image_desc_scan]. rewrite Nat2Z.id.
    destruct (lookup_lt_is_Some_2 (bl1_tbbr_image_descs s) k ltac:(lia))
      as [d Hd].
    rewrite Hd.
    destruct (Hskip k d ltac:(lia) Hd) as [Hns Hnq].
    destruct (Z.eqb_spec (image_id d) (uint32 (INVALID_IMAGE_ID plat)));
      [contradiction|].
    destruct (Z.eqb_spec (image_id d) q); [contradiction|].
    rewrite uint32_small by lia.
    replace (Z.of_nat k + 1) with (Z.of_nat (S k)) by lia.
    rewrite IH.
    + f_equal. f_equal. lia.
    + lia.
    + lia.
    + intros j d' Hj. apply Hskip. lia.
Qed.

(** Reaching a matching entry that is not the sentinel ends the loop
    with its address. *)
Lemma image_desc_scan_hit (q : Z) (i fuel : nat) (d : image_desc_t) :
  bl1_tbbr_image_descs s !! i = Some d ->
  image_id d <> uint32 (INVALID_IMAGE_ID plat) ->
  image_id d = q ->
  image_desc_scan plat (S fuel) (Z.of_nat i) q s
  = Some (ScanReturns (AddrOfElement bl1_tbbr_image_descs_obj (Z.of_nat i))).
Proof.
  intros Hd Hns Hq. cbn [image_desc_scan]. rewrite Nat2Z.id, Hd.
  destruct (Z.eqb_spec (image_id d) (uint32 (INVALID_IMAGE_ID plat)));
    [contradiction|].
  destruct (Z.eqb_spec (image_id d) q); [reflexivity|contradiction].
Qed.

(** Reaching the sentinel ends the loop with [NULL], whatever the
    query. *)
Lemma image_desc_scan_sentinel (q : Z) (n fuel : nat) (d : image_desc_t) :
  bl1_tbbr_image_descs s !! n = Some d ->
  image_id d = uint32 (INVALID_IMAGE_ID plat) ->
  image_desc_scan plat (S fuel) (Z.of_nat n) q s = Some (ScanReturns NULL).
Proof.
  intros Hd Hs. cbn [image_desc_scan]. rewrite Nat2Z.id, Hd.
  destruct (Z.eqb_spec (image_id d) (uint32 (INVALID_IMAGE_ID plat)));
    [reflexivity|contradiction].
Qed.

Lemma bl1_plat_get_image_desc_found (id : Z) (n i fuel : nat) (d : image_desc_t) :
  first_sentinel_at plat s n ->
  (i < n)%nat ->
  bl1_tbbr_image_descs s !! i = Some d ->
  image_id d = uint32 id ->
  (forall (j : nat) (d' : image_desc_t),
      (j < i)%nat -> bl1_tbbr_image_descs s !! j = Some d' ->
      image_id d' <> uint32 id) ->
  (i < fuel)%nat ->
  bl1_plat_get_image_desc plat fuel id s
  = Some (ScanReturns (AddrOfElement bl1_tbbr_image_descs_obj (Z.of_nat i))).
Proof.
  intros (Hn & (ds & Hds & _) & Hfirst) Hi Hd Hid Hbefore Hfuel.
  unfold bl1_plat_get_image_desc.
  replace fuel with (i + S (fuel - S i))%nat by lia.
  pose proof (lookup_lt_Some _ _ _ Hd) as Hlen.
  change 0 with (Z.of_nat 0).
  rewrite image_desc_scan_skip.
  - apply image_desc_scan_hit with (d := d); eauto with lia.
  - lia.
  - lia.
  - intros j d' Hj Hd'. split.
    + apply (Hfirst j d'); [lia|exact Hd'].
    + apply (Hbefore j d'); [lia|exact Hd'].
Qed.

Lemma bl1_plat_get_image_desc_not_found (id : Z) (n fuel : nat) :
  first_sentinel_at plat s n ->
  (forall (j : nat) (d : image_desc_t),
      (j < n)%nat -> bl1_tbbr_image_descs s !! j = Some d ->
      image_id d <> uint32 id) ->
  (n < fuel)%nat ->
  bl1_plat_get_image_desc plat fuel id s = Some (ScanReturns NULL).
Proof.
  intros (Hn & (ds & Hds & Hsent) & Hfirst) Hnone Hfuel.
  unfold bl1_plat_get_image_desc.
  replace fuel with (n + S (fuel - S n))%nat by lia.
  pose proof (lookup_lt_Some _ _ _ Hds) as Hlen.
  change 0 with (Z.of_nat 0).
  rewrite image_desc_scan_skip.
  - apply image_desc_scan_sentinel with (d := ds); assumption.
  - lia.
  - lia.
  - intros j d' Hj Hd'. split.
    + apply (Hfirst j d'); [lia|exact Hd'].
    + apply (Hnone j d'); [lia|exact Hd'].
Qed.

(** With [INVALID_IMAGE_ID] as the query the loop never returns the
    address of an entry, from any index and for any table. *)
Lemma image_desc_scan_invalid_id (fuel : nat) (index : Z) (p : pointer) :
  image_desc_scan plat fuel index (uint32 (INVALID_IMAGE_ID plat)) s
  = Some (ScanReturns p) ->
  p = NULL.
Proof.
  revert index. induction fuel as [|fuel IH]; intros index; [discriminate|].
  cbn [image_desc_scan].
  destruct (bl1_tbbr_image_descs s !! Z.to_nat index) as [d|];
    [|discriminate].
  destruct (Z.eqb_spec (image_id d) (uint32 (INVALID_IMAGE_ID plat))).
  - intros [= <-]. reflexivity.
  - apply IH.
Qed.

End ImageDescScan.

(** C3.  On a table whose first sentinel is at index [n]:
    [bl1_plat_get_image_desc] returns the address of the first entry
    before the sentinel whose [image_id] equals the argument; it returns
    [NULL] when no entry before the sentinel matches, and in particular
    when the table starts with the sentinel. *)
Theorem bl1_plat_get_image_desc_first_match
    (plat : platform_def) (s : bl1_state) (id : Z) (n : nat) :
  first_sentinel_at plat s n ->
  (forall (i : nat) (d : image_desc_t),
      (i < n)%nat ->
      bl1_tbbr_image_descs s !! i = Some d ->
      image_id d = uint32 id ->
      (forall (j : nat) (d' : image_desc_t),
          (j < i)%nat -> bl1_tbbr_image_descs s !! j = Some d' ->
          image_id d' <> uint32 id) ->
      forall fuel : nat, (i < fuel)%nat ->
        bl1_plat_get_image_desc plat fuel id s
        = Some (ScanReturns
                  (AddrOfElement bl1_tbbr_image_descs_obj (Z.of_nat i))))
  /\ ((forall (j : nat) (d : image_desc_t),
          (j < n)%nat -> bl1_tbbr_image_descs s !! j = Some d ->
          image_id d <> uint32 id) ->
      forall fuel : nat, (n < fuel)%nat ->
        bl1_plat_get_image_desc plat fuel id s = Some (ScanReturns NULL))
  /\ (n = 0%nat ->
      forall fuel : nat, (0 < fuel)%nat ->
        bl1_plat_get_image_desc plat fuel id s = Some (ScanReturns NULL)).
Proof.
  intros Hn. split; [|split].
  - intros i d Hi Hd Hid Hbefore fuel Hfuel.
    eapply bl1_plat_get_image_desc_found; eassumption.
  - intros Hnone fuel Hfuel.
    eapply bl1_plat_get_image_desc_not_found; eassumption.
  - intros -> fuel Hfuel.
    eapply bl1_plat_get_image_desc_not_found; [exact Hn| |exact Hfuel].
    intros j d Hj. lia.
Qed.

Lemma sample_first_sentinel :
  first_sentinel_at sample_platform_def sample_bl1_state 2.
Proof.
  split; [reflexivity|]. split.
  - eexists. split; reflexivity.
  - intros j d Hj Hd.
    destruct j as [|[|j]]; [| |lia]; simpl in Hd;
      injection Hd as <-; discriminate.
Defined.

Lemma bl1_plat_get_image_desc_first_match_witness :
  bl1_plat_get_image_desc sample_platform_def 3 21 sample_bl1_state
  = Some (ScanReturns (AddrOfElement bl1_tbbr_image_descs_obj 1))
  /\ bl1_plat_get_image_desc sample_platform_def 3 7 sample_bl1_state
     = Some (ScanReturns NULL).
Proof.
  destruct (bl1_plat_get_image_desc_first_match
              sample_platform_def sample_bl1_state 21 2 sample_first_sentinel)
    as [Hfound _].
  destruct (bl1_plat_get_image_desc_first_match
              sample_platform_def sample_bl1_state 7 2 sample_first_sentinel)
    as [_ [Hnone _]].
  split.
  - apply (Hfound 1%nat {| image_id := 21; image_meta := 0 |});
      [lia|reflexivity|reflexivity| |lia].
    intros j d' Hj Hd'. destruct j as [|j]; [|lia].
    simpl in Hd'. injection Hd' as <-. discriminate.
  - apply Hnone; [|lia].
    intros j d Hj Hd.
    destruct j as [|[|j]]; [| |lia]; simpl in Hd;
      injection Hd as <-; discriminate.
Defined.

(** C10.  Asked for [INVALID_IMAGE_ID], [bl1_plat_get_image_desc] never
    returns the address of an entry, whatever the table holds: the test
    for the sentinel comes before the test for a match.  On a table with
    a sentinel it returns [NULL]. *)
Theorem bl1_plat_get_image_desc_invalid_id
    (plat : platform_def) (s : bl1_state) :
  (forall (fuel : nat) (p : pointer),
      bl1_plat_get_image_desc plat fuel (INVALID_IMAGE_ID plat) s
      = Some (ScanReturns p) ->
      p = NULL)
  /\ (forall n fuel : nat,
         first_sentinel_at plat s n ->
         (n < fuel)%nat ->
         bl1_plat_get_image_desc plat fuel (INVALID_IMAGE_ID plat) s
         = Some (ScanReturns NULL)).
Proof.
  split.
  - intros fuel p. unfold bl1_plat_get_image_desc.
    apply image_desc_scan_invalid_id.
  - intros n fuel Hn Hfuel.
    eapply bl1_plat_get_image_desc_not_found; [exact Hn| |exact Hfuel].
    destruct Hn as (_ & _ & Hfirst). exact Hfirst.
Qed.

(** ** The poll loops of the timer bring-up *)

Section Poll.

Variable hw : device.
Variable again : Z -> bool.
Variable addr : Z.

(** The value the loop sees at the [n]-th read of the run. *)
Local Abbreviation seen n := (uint32 (hw n (uint64 addr))).

(** A loop that has ended has read the register at consecutive reads
    of the run, and the last value read is the first one to fail the
    loop condition. *)
Lemma poll_some (fuel : nat) (w w' : world) :
  poll hw again addr fuel w = Some w' ->
  exists (k : nat) (values : list Z),
    (k < fuel)%nat
    /\ (forall j : nat, (j < k)%nat -> again (seen (reads w + j)%nat) = true)
    /\ again (seen (reads w + k)%nat) = false
    /\ length values = S k
    /\ trace w' = trace w ++ map (EvMmioRead (uint64 addr)) values
    /\ reads w' = (reads w + S k)%nat
    /\ ram w' = ram w.
Proof.
  revert w. induction fuel as [|fuel IH]; intros w; [discriminate|].
  cbn [poll]. unfold mmio_read_32.
  destruct (again (seen (reads w))) eqn:Hagain.
  - intros Hpoll. apply IH in Hpoll.
    destruct Hpoll as (k & values & Hk & Hbefore & Hlast & Hlen & Htr & Hrd & Hram).
    cbn [reads trace ram] in *.
    exists (S k), (seen (reads w) :: values).
    repeat split.
    + lia.
    + intros [|j] Hj.
      * rewrite Nat.add_0_r. exact Hagain.
      * replace (reads w + S j)%nat with (S (reads w) + j)%nat by lia.
        apply Hbefore. lia.
    + replace (reads w + S k)%nat with (S (reads w) + k)%nat by lia.
      exact Hlast.
    + simpl. lia.
    + rewrite Htr, <- app_assoc. reflexivity.
    + lia.
    + exact Hram.
  - intros [= <-]. exists 0%nat, [seen (reads w)].
    cbn [reads trace ram].
    repeat split.
    + lia.
    + intros j Hj. lia.
    + rewrite Nat.add_0_r. exact Hagain.
    + lia.
Qed.

(** More fuel does not change the result of a loop that has ended. *)
Lemma poll_mono (fuel fuel' : nat) (w w' : world) :
  poll hw again addr fuel w = Some w' ->
  (fuel <= fuel')%nat ->
  poll hw again addr fuel' w = Some w'.
Proof.
  revert fuel' w. induction fuel as [|fuel IH]; intros fuel' w; [discriminate|].
  intros Hpoll Hle. destruct fuel' as [|fuel']; [lia|].
  cbn [poll] in *.
  destruct (mmio_read_32 hw addr w) as [data w1].
  destruct (again data); [|exact Hpoll].
  apply IH; [exact Hpoll|lia].
Qed.

(** The loop ends as soon as some read, now or later, fails the loop
    condition. *)
Lemma poll_terminates (n : nat) (w : world) :
  (reads w <= n)%nat ->
  again (seen n) = false ->
  exists w', poll hw again addr (S (n - reads w)) w = Some w'
             /\ (reads w' <= S n)%nat.
Proof.
  remember (n - reads w)%nat as d eqn:Hd.
  revert w Hd. induction d as [|d IH]; intros w Hd Hle Hstop.
  - assert (reads w = n) as Hn by lia.
    cbn [poll]. unfold mmio_read_32. rewrite Hn, Hstop.
    eexists. split; [reflexivity|]. cbn [reads]. lia.
  - cbn [poll]. unfold mmio_read_32.
    destruct (again (seen (reads w))) eqn:Hagain.
    + apply IH; cbn [reads]; [lia|lia|exact Hstop].
    + eexists. split; [reflexivity|]. cbn [reads]. lia.
Qed.

(** The loop never ends when every read from now on passes the loop
    condition. *)
Lemma poll_spins (fuel : nat) (w : world) :
  (forall n : nat, (reads w <= n)%nat -> again (seen n) = true) ->
  poll hw again addr fuel w = None.
Proof.
  revert w. induction fuel as [|fuel IH]; intros w Hstuck; [reflexivity|].
  cbn [poll]. unfold mmio_read_32.
  rewrite (Hstuck (reads w)) by lia.
  apply IH. cbn [reads]. intros n Hn. apply Hstuck. lia.
Qed.

End Poll.

Section TimerInit.

Variable plat : platform_def.
Variable hw : device.

Local Abbreviation rstdis := (CRG_REG_BASE plat + CRG_PERRSTDIS1_OFFSET plat).
Local Abbreviation rststat := (CRG_REG_BASE plat + CRG_PERRSTSTAT1_OFFSET plat).
Local Abbreviation peren := (CRG_REG_BASE plat + CRG_PEREN1_OFFSET plat).
Local Abbreviation perstat := (CRG_REG_BASE plat + CRG_PERSTAT1_OFFSET plat).

Lemma timer9_in_reset_false (data : Z) :
  timer9_in_reset plat (uint32 data) = false <-> ~ timer9_bit_set plat data.
Proof.
  unfold timer9_in_reset, timer9_bit_set.
  destruct (Z.eqb_spec (Z.land (uint32 data) (PERI_TIMER9_BIT plat)) 0);
    simpl; split; intros H; congruence || tauto.
Qed.

Lemma timer9_disabled_false (data : Z) :
  timer9_disabled plat (uint32 data) = false <-> timer9_bit_set plat data.
Proof.
  unfold timer9_disabled, timer9_bit_set.
  destruct (Z.eqb_spec (Z.land (uint32 data) (PERI_TIMER9_BIT plat)) 0);
    simpl; split; intros H; congruence || tauto.
Qed.

(** What a completed [hikey960_timer_init] has done: the reset-status
    bit was seen clear at some read, the enable-status bit was seen set
    at a later one, and the trace grew by the two writes, the reads of
    the two loops and the call of the SP804 driver, in this order. *)
Lemma hikey960_timer_init_some (fuel : nat) (w w' : world) :
  hikey960_timer_init plat hw fuel w = Some w' ->
  exists (t1 t2 : nat) (polls_reset polls_enable : list Z),
    (reads w <= t1 < t2)%nat
    /\ ~ timer9_bit_set plat (hw t1 (uint64 rststat))
    /\ timer9_bit_set plat (hw t2 (uint64 perstat))
    /\ polls_reset <> [] /\ polls_enable <> []
    /\ trace w'
       = trace w
         ++ [EvMmioWrite (uint64 rstdis) (uint32 (PERI_TIMER9_BIT plat))]
         ++ map (EvMmioRead (uint64 rststat)) polls_reset
         ++ [EvMmioWrite (uint64 peren) (uint32 (PERI_TIMER9_BIT plat))]
         ++ map (EvMmioRead (uint64 perstat)) polls_enable
         ++ [EvSp804TimerInit (uint64 (TIMER9_REG_BASE plat))
               (uint32 15625) (uint32 512)]
    /\ ram w' = ram w.
Proof.
  unfold hikey960_timer_init.
  destruct (poll hw (timer9_in_reset plat) rststat fuel
              (mmio_write_32 rstdis (PERI_TIMER9_BIT plat) w))
    as [w2|] eqn:Hloop1; [|discriminate].
  destruct (poll hw (timer9_disabled plat) perstat fuel
              (mmio_write_32 peren (PERI_TIMER9_BIT plat) w2))
    as [w4|] eqn:Hloop2; [|discriminate].
  intros [= <-].
  apply poll_some in Hloop1.
  destruct Hloop1 as (k1 & v1 & _ & _ & Hstop1 & Hlen1 & Htr1 & Hrd1 & Hram1).
  apply poll_some in Hloop2.
  destruct Hloop2 as (k2 & v2 & _ & _ & Hstop2 & Hlen2 & Htr2 & Hrd2 & Hram2).
  cbn [mmio_write_32 emit reads trace ram] in *.
  exists (reads w + k1)%nat, (reads w2 + k2)%nat, v1, v2.
  repeat split.
  - lia.
  - lia.
  - apply timer9_in_reset_false. exact Hstop1.
  - apply timer9_disabled_false. exact Hstop2.
  - intros ->. discriminate.
  - intros ->. discriminate.
  - unfold sp804_timer_init, emit; cbn [trace].
    rewrite Htr2, Htr1. rewrite <- !app_assoc. reflexivity.
  - unfold sp804_timer_init, emit; cbn [ram]. congruence.
Qed.

(** [hikey960_timer_init] returns once the reset-status bit reads clear
    and, at a later read, the enable-status bit reads set. *)
Lemma hikey960_timer_init_returns (t1 t2 : nat) (w : world) :
  (reads w <= t1 < t2)%nat ->
  ~ timer9_bit_set plat (hw t1 (uint64 rststat)) ->
  timer9_bit_set plat (hw t2 (uint64 perstat)) ->
  exists (fuel : nat) (w' : world),
    hikey960_timer_init plat hw fuel w = Some w'.
Proof.
  intros Ht Hclear Hset.
  pose (w1 := mmio_write_32 rstdis (PERI_TIMER9_BIT plat) w).
  destruct (poll_terminates hw (timer9_in_reset plat) rststat t1 w1)
    as (w2 & Hloop1 & Hrd2).
  { cbn [w1 mmio_write_32 emit reads]. lia. }
  { apply timer9_in_reset_false. exact Hclear. }
  pose (w3 := mmio_write_32 peren (PERI_TIMER9_BIT plat) w2).
  destruct (poll_terminates hw (timer9_disabled plat) perstat t2 w3)
    as (w4 & Hloop2 & _).
  { cbn [w3 mmio_write_32 emit reads]. lia. }
  { apply timer9_disabled_false. exact Hset. }
  exists (S (t1 - reads w1) `max` S (t2 - reads w3))%nat.
  eexists. unfold hikey960_timer_init. fold w1.
  rewrite (poll_mono _ _ _ _ _ _ _ Hloop1) by lia.
  fold w3.
  rewrite (poll_mono _ _ _ _ _ _ _ Hloop2) by lia.
  reflexivity.
Qed.

(** A reset-status bit that stays set keeps the first loop spinning. *)
Lemma hikey960_timer_init_stuck_reset (fuel : nat) (w : world) :
  (forall t : nat, (reads w <= t)%nat ->
                   timer9_bit_set plat (hw t (uint64 rststat))) ->
  hikey960_timer_init plat hw fuel w = None.
Proof.
  intros Hstuck. unfold hikey960_timer_init.
  rewrite poll_spins; [reflexivity|].
  intros n Hn. cbn [mmio_write_32 emit reads] in Hn.
  destruct (timer9_in_reset plat (uint32 (hw n (uint64 rststat)))) eqn:E;
    [reflexivity|].
  apply timer9_in_reset_false in E. exfalso. apply E, Hstuck, Hn.
Qed.

(** An enable-status bit that stays clear keeps the second loop
    spinning, if the first one ends at all. *)
Lemma hikey960_timer_init_stuck_enable (fuel : nat) (w : world) :
  (forall t : nat, (reads w <= t)%nat ->
                   ~ timer9_bit_set plat (hw t (uint64 perstat))) ->
  hikey960_timer_init plat hw fuel w = None.
Proof.
  intros Hstuck. unfold hikey960_timer_init.
  destruct (poll hw (timer9_in_reset plat) rststat fuel
              (mmio_write_32 rstdis (PERI_TIMER9_BIT plat) w))
    as [w2|] eqn:Hloop1; [|reflexivity].
  apply poll_some in Hloop1.
  destruct Hloop1 as (k1 & v1 & _ & _ & _ & _ & _ & Hrd1 & _).
  cbn [mmio_write_32 emit reads] in Hrd1.
  rewrite poll_spins; [reflexivity|].
  intros n Hn. cbn [mmio_write_32 emit reads] in Hn.
  destruct (timer9_disabled plat (uint32 (hw n (uint64 perstat)))) eqn:E;
    [reflexivity|].
  apply timer9_disabled_false in E. exfalso.
  apply (Hstuck n); [lia|exact E].
Qed.

End TimerInit.

(** X10.  The wait has no bound: for every number of reads there is a device
    that makes [hikey960_timer_init] wait longer than that and still lets
    it return. *)
Lemma hikey960_timer_init_unbounded
    (plat : platform_def) (w : world) (n : nat) :
  uint32 (PERI_TIMER9_BIT plat) <> 0 ->
  hikey960_timer_init plat (late_device plat (reads w + n)) n w = None
  /\ exists (fuel : nat) (w' : world),
       hikey960_timer_init plat (late_device plat (reads w + n)) fuel w
       = Some w'.
Proof.
  intros Hbit.
  assert (Hset : timer9_bit_set plat (PERI_TIMER9_BIT plat)).
  { unfold timer9_bit_set. unfold uint32 in *.
    rewrite <- Z.land_ones in * by lia.
    rewrite <- Z.land_assoc, (Z.land_comm (Z.ones 32)), Z.land_assoc,
      Z.land_diag.
    exact Hbit. }
  assert (Hclear : ~ timer9_bit_set plat 0).
  { unfold timer9_bit_set. intros H. apply H. reflexivity. }
  split.
  - unfold hikey960_timer_init.
    destruct (poll _ _ _ n _) as [w2|] eqn:Hloop1; [|reflexivity].
    apply poll_some in Hloop1.
    destruct Hloop1 as (k & _ & Hk & _ & Hstop & _).
    cbn [mmio_write_32 emit reads] in Hstop.
    apply timer9_in_reset_false in Hstop.
    exfalso. apply Hstop. unfold late_device.
    destruct (Nat.eqb_spec (reads w + k) (reads w + n)); [lia|exact Hset].
  - apply (hikey960_timer_init_returns plat _ (reads w + n) (S (reads w + n))).
    + lia.
    + unfold late_device. rewrite Nat.eqb_refl. exact Hclear.
    + unfold late_device.
      destruct (Nat.eqb_spec (S (reads w + n)) (reads w + n)); [lia|exact Hset].
Qed.

(** C5.  [hikey960_timer_init] returns if and only if the hardware at
    some read shows the TIMER9 reset-status bit clear and at a later read
    shows the TIMER9 enable-status bit set; no bound on the number of
    reads makes it give up.  A reset-status bit stuck at 1, or an
    enable-status bit stuck at 0, makes it spin forever. *)
Theorem hikey960_timer_init_terminates_iff
    (plat : platform_def) (hw : device) (w : world) :
  let rststat := uint64 (CRG_REG_BASE plat + CRG_PERRSTSTAT1_OFFSET plat) in
  let perstat := uint64 (CRG_REG_BASE plat + CRG_PERSTAT1_OFFSET plat) in
  ((exists (fuel : nat) (w' : world),
       hikey960_timer_init plat hw fuel w = Some w')
   <->
   (exists t1 t2 : nat,
       (reads w <= t1 < t2)%nat
       /\ ~ timer9_bit_set plat (hw t1 rststat)
       /\ timer9_bit_set plat (hw t2 perstat)))
  /\ ((forall t : nat, (reads w <= t)%nat ->
                       timer9_bit_set plat (hw t rststat)) ->
      forall fuel : nat, hikey960_timer_init plat hw fuel w = None)
  /\ ((forall t : nat, (reads w <= t)%nat ->
                       ~ timer9_bit_set plat (hw t perstat)) ->
      forall fuel : nat, hikey960_timer_init plat hw fuel w = None).
Proof.
  intros rststat perstat. split; [split|split].
  - intros (fuel & w' & Hrun).
    destruct (hikey960_timer_init_some plat hw fuel w w' Hrun)
      as (t1 & t2 & _ & _ & Ht & Hclear & Hset & _).
    exists t1, t2. auto.
  - intros (t1 & t2 & Ht & Hclear & Hset).
    eapply hikey960_timer_init_returns; eassumption.
  - intros Hstuck fuel. apply hikey960_timer_init_stuck_reset. exact Hstuck.
  - intros Hstuck fuel. apply hikey960_timer_init_stuck_enable. exact Hstuck.
Qed.

(** ** The order of the bring-up steps *)

(** [bl1_platform_setup] returns under the same condition as the timer
    bring-up, counted from the read after the one [hikey960_pmu_init]
    performs. *)
Lemma bl1_platform_setup_returns
    (plat : platform_def) (hw : device) (s : bl1_state) (t1 t2 : nat) :
  (S (reads (bl1_world s)) <= t1 < t2)%nat ->
  ~ timer9_bit_set plat
      (hw t1 (uint64 (CRG_REG_BASE plat + CRG_PERRSTSTAT1_OFFSET plat))) ->
  timer9_bit_set plat
    (hw t2 (uint64 (CRG_REG_BASE plat + CRG_PERSTAT1_OFFSET plat))) ->
  exists (fuel : nat) (s' : bl1_state),
    bl1_platform_setup plat hw fuel s = Some s'.
Proof.
  intros Ht Hclear Hset.
  destruct (hikey960_timer_init_returns plat hw t1 t2
              (hikey960_pmu_init plat hw (hikey960_clk_init plat (bl1_world s))))
    as (fuel & w' & Hrun); [exact Ht|exact Hclear|exact Hset|].
  exists fuel. eexists. unfold bl1_platform_setup. rewrite Hrun. reflexivity.
Qed.

(** C6.  A completed [bl1_platform_setup] has extended the trace by the
    accesses of the clock-divider step, then those of the PMU step, then
    those of the timer step, then the call of the UFS driver, then the
    I/O setup, in this order and with nothing in between; it changes
    nothing else.  It completes whenever the timer bring-up does. *)
Theorem bl1_platform_setup_order
    (plat : platform_def) (hw : device) (s : bl1_state) :
  let clkdiv3 := uint64 (CRG_REG_BASE plat + CRG_CLKDIV3_OFFSET plat) in
  let ctrl7 := uint64 (PMU_SSI0_REG_BASE plat
                       + PMU_SSI0_CLK_TOP_CTRL7_OFFSET plat) in
  let rstdis := uint64 (CRG_REG_BASE plat + CRG_PERRSTDIS1_OFFSET plat) in
  let rststat := uint64 (CRG_REG_BASE plat + CRG_PERRSTSTAT1_OFFSET plat) in
  let peren := uint64 (CRG_REG_BASE plat + CRG_PEREN1_OFFSET plat) in
  let perstat := uint64 (CRG_REG_BASE plat + CRG_PERSTAT1_OFFSET plat) in
  (forall (fuel : nat) (s' : bl1_state),
      bl1_platform_setup plat hw fuel s = Some s' ->
      exists (pmu_value : Z) (polls_reset polls_enable : list Z),
        trace (bl1_world s')
        = trace (bl1_world s)
          (* hikey960_clk_init *)
          ++ [EvMmioWrite clkdiv3 0xf0001000]
          (* hikey960_pmu_init *)
          ++ [EvMmioRead ctrl7 pmu_value;
              EvMmioWrite ctrl7
                (uint32 (Z.land pmu_value (Z.lnot (NP_XO_ABB_DIG plat))))]
          (* hikey960_timer_init *)
          ++ ([EvMmioWrite rstdis (uint32 (PERI_TIMER9_BIT plat))]
              ++ map (EvMmioRead rststat) polls_reset
              ++ [EvMmioWrite peren (uint32 (PERI_TIMER9_BIT plat))]
              ++ map (EvMmioRead perstat) polls_enable
              ++ [EvSp804TimerInit (uint64 (TIMER9_REG_BASE plat)) 15625 512])
          (* hikey960_ufs_init *)
          ++ [EvUfsInit NULL
                {| reg_base := uint64 (UFS_REG_BASE plat);
                   desc_base := uint64 (HIKEY960_UFS_DESC_BASE plat);
                   desc_size := uint64 (HIKEY960_UFS_DESC_SIZE plat);
                   flags := uint32 (UFS_FLAGS_SKIPINIT plat) |}]
          (* hikey960_io_setup *)
          ++ [EvIoSetup]
        /\ polls_reset <> [] /\ polls_enable <> []
        /\ bl1_tzram_layout s' = bl1_tzram_layout s
        /\ bl1_tbbr_image_descs s' = bl1_tbbr_image_descs s
        /\ ram (bl1_world s') = ram (bl1_world s))
  /\ (forall t1 t2 : nat,
         (S (reads (bl1_world s)) <= t1 < t2)%nat ->
         ~ timer9_bit_set plat (hw t1 rststat) ->
         timer9_bit_set plat (hw t2 perstat) ->
         exists (fuel : nat) (s' : bl1_state),
           bl1_platform_setup plat hw fuel s = Some s').
Proof.
  intros clkdiv3 ctrl7 rstdis rststat peren perstat. split.
  - intros fuel s'. unfold bl1_platform_setup.
    destruct (hikey960_timer_init plat hw fuel
                (hikey960_pmu_init plat hw
                   (hikey960_clk_init plat (bl1_world s))))
      as [w'|] eqn:Htimer; [|discriminate].
    intros [= <-].
    apply hikey960_timer_init_some in Htimer.
    destruct Htimer
      as (t1 & t2 & polls_reset & polls_enable & _ & _ & _
          & Hne1 & Hne2 & Htrace & Hram).
    exists (uint32 (hw (reads (bl1_world s)) ctrl7)), polls_reset, polls_enable.
    repeat split; try assumption.
    unfold hikey960_io_setup, hikey960_ufs_init, bl1_with_world, emit.
    cbn [bl1_world trace]. rewrite Htrace.
    unfold hikey960_pmu_init, hikey960_clk_init, mmio_clrbits_32,
      mmio_read_32, mmio_write_32, emit.
    cbn [trace reads ram].
    rewrite <- !app_assoc. reflexivity.
  - intros t1 t2. apply bl1_platform_setup_returns.
Qed.

(** ** The parameter block for BL3-1 *)

Lemma memset_whole (object_bytes : list Z) :
  memset object_bytes 0 (length object_bytes)
  = replicate (length object_bytes) 0.
Proof.
  unfold memset. rewrite Nat.min_id, drop_all, app_nil_r. reflexivity.
Qed.

Lemma bl2_populate_length (stores : list (nat * Z)) (s : bl2_state) :
  length (bl31_params_mem (bl2_populate stores s))
  = length (bl31_params_mem s).
Proof.
  revert s. induction stores as [|store stores IH]; intros s; [reflexivity|].
  simpl. rewrite IH. unfold bl2_store_byte; simpl. apply length_insert.
Qed.

(** C4.  After [bl2_plat_get_bl31_params] every byte of
    [bl31_params_mem] reads zero and the pointer returned is the address
    of its member [bl31_params]; nothing else changes.  A second call
    zeroes again whatever was stored into the block in between. *)
Theorem bl2_plat_get_bl31_params_zeroes (s : bl2_state) :
  let size := length (bl31_params_mem s) in
  let r := bl2_plat_get_bl31_params s in
  r.1 = AddrOfMember bl31_params_mem_obj bl31_params_member
  /\ bl31_params_mem r.2 = replicate size 0
  /\ (forall i : nat, (i < size)%nat -> bl31_params_mem r.2 !! i = Some 0)
  /\ bl2_tzram_layout r.2 = bl2_tzram_layout s
  /\ bl2_world r.2 = bl2_world s
  /\ (forall stores : list (nat * Z),
         let r' := bl2_plat_get_bl31_params (bl2_populate stores r.2) in
         r'.1 = r.1 /\ bl31_params_mem r'.2 = replicate size 0).
Proof.
  intros size r. subst r. unfold bl2_plat_get_bl31_params.
  cbn [fst snd]. unfold sizeof_bl2_to_bl31_params_mem_t.
  cbn [bl2_with_params_mem bl31_params_mem bl2_tzram_layout bl2_world].
  rewrite memset_whole. fold size.
  repeat split.
  - intros i Hi. apply lookup_replicate_2. exact Hi.
  - rewrite memset_whole, bl2_populate_length.
    cbn [bl2_with_params_mem bl31_params_mem].
    rewrite length_replicate. reflexivity.
Qed.

(** ** The hooks of BL2 *)

(** C7.  [bl2_early_platform_setup] initializes the console and does
    nothing else: its result does not depend on [mem_layout], it leaves
    [bl2_tzram_layout], [bl31_params_mem] and memory as they were, and
    started in two states that differ only in the memory [mem_layout] may
    point to it ends in two states that differ only there. *)
Theorem bl2_early_platform_setup_ignores_mem_layout (plat : platform_def) :
  (forall (mem_layout1 mem_layout2 : Z) (s : bl2_state),
      bl2_early_platform_setup plat mem_layout1 s
      = bl2_early_platform_setup plat mem_layout2 s)
  /\ (forall (mem_layout : Z) (s : bl2_state),
         let s' := bl2_early_platform_setup plat mem_layout s in
         bl2_tzram_layout s' = bl2_tzram_layout s
         /\ bl31_params_mem s' = bl31_params_mem s
         /\ ram (bl2_world s') = ram (bl2_world s)
         /\ reads (bl2_world s') = reads (bl2_world s)
         /\ trace (bl2_world s')
            = trace (bl2_world s)
              ++ [EvConsoleInit (uint64 (PL011_UART0_BASE plat))
                    (uint32 (PL011_UART0_CLK_IN_HZ plat))
                    (uint32 (PL011_BAUDRATE plat))])
  /\ (forall (mem_layout1 mem_layout2 : Z) (s1 s2 : bl2_state),
         bl2_same_but_ram s1 s2 ->
         bl2_same_but_ram (bl2_early_platform_setup plat mem_layout1 s1)
           (bl2_early_platform_setup plat mem_layout2 s2)).
Proof.
  split; [|split].
  - reflexivity.
  - intros mem_layout s. repeat split.
  - intros p1 p2 s1 s2 (Hl & Hp & Ht & Hr).
    unfold bl2_same_but_ram, bl2_early_platform_setup, console_init, emit.
    cbn [bl2_with_world bl2_tzram_layout bl31_params_mem bl2_world trace reads].
    rewrite Ht. auto.
Qed.

(** C8.  The placeholder hooks return the state they are given, for
    every argument, and [bl2_plat_handle_bl30] returns 0. *)
Theorem placeholder_hooks_change_nothing :
  (forall (image_id' ep_info : Z) (s : bl1_state),
      bl1_plat_set_ep_info image_id' ep_info s = s)
  /\ (forall s : bl2_state, bl2_platform_setup s = s)
  /\ (forall s : bl2_state, bl2_plat_arch_setup s = s)
  /\ (forall s : bl2_state, bl2_plat_flush_bl31_params s = s)
  /\ (forall (image_info ep_info : Z) (s : bl2_state),
         bl2_plat_set_bl31_ep_info image_info ep_info s = s)
  /\ (forall (image_info ep_info : Z) (s : bl2_state),
         bl2_plat_set_bl32_ep_info image_info ep_info s = s)
  /\ (forall (image_info ep_info : Z) (s : bl2_state),
         bl2_plat_set_bl33_ep_info image_info ep_info s = s)
  /\ (forall (meminfo : Z) (s : bl2_state),
         bl2_plat_get_bl30_meminfo meminfo s = s)
  /\ (forall (meminfo : Z) (s : bl2_state),
         bl2_plat_get_bl32_meminfo meminfo s = s)
  /\ (forall (meminfo : Z) (s : bl2_state),
         bl2_plat_get_bl33_meminfo meminfo s = s)
  /\ (forall (image_info : Z) (s : bl2_state),
         bl2_plat_handle_bl30 image_info s = (0, s)).
Proof.
  repeat split.
Qed.

(** ** The layout accessors *)

Lemma call_repeatedly_pure {S : Type} (f : S -> pointer * S) (p : pointer) :
  (forall s : S, f s = (p, s)) ->
  forall (n : nat) (s : S), call_repeatedly f n s = (replicate n p, s).
Proof.
  intros Hf n. induction n as [|n IH]; intros s; [reflexivity|].
  cbn [call_repeatedly]. rewrite Hf, IH. reflexivity.
Qed.

(** C9.  Any number of calls of [bl1_plat_sec_mem_layout] return the
    address of [bl1_tzram_layout] each time and leave the state as it
    was; likewise [bl2_plat_sec_mem_layout] and [bl2_tzram_layout]. *)
Theorem sec_mem_layout_idempotent :
  (forall (n : nat) (s : bl1_state),
      call_repeatedly bl1_plat_sec_mem_layout n s
      = (replicate n (AddrOf bl1_tzram_layout_obj), s))
  /\ (forall s : bl1_state,
         bl1_deref_meminfo (bl1_plat_sec_mem_layout s).1 s
         = Some (bl1_tzram_layout s))
  /\ (forall (n : nat) (s : bl2_state),
         call_repeatedly bl2_plat_sec_mem_layout n s
         = (replicate n (AddrOf bl2_tzram_layout_obj), s))
  /\ (forall s : bl2_state,
         bl2_deref_meminfo (bl2_plat_sec_mem_layout s).1 s
         = Some (bl2_tzram_layout s)).
Proof.
  split; [|split; [|split]].
  - apply call_repeatedly_pure. reflexivity.
  - reflexivity.
  - apply call_repeatedly_pure. reflexivity.
  - reflexivity.
Qed.

(** * The statements on the sample configuration *)



Example early_setup_layout_strictly_inside :
  bl1_tzram_layout
    (bl1_early_platform_setup inside_platform_def sample_bl1_state)
  = {| total_base := 0x1AC10000; total_size := 0x00188000;
       free_base := 0x1AC2C000; free_size := 0x0016C000 |}.
Proof. reflexivity. Qed.

Example next_image_id_recovery :
  returned (bl1_plat_get_next_image_id sample_platform_def
              (fun _ _ => 0x5A5A5A5A) sample_bl1_state)
  = Some 21.
Proof. reflexivity. Qed.

Example next_image_id_normal :
  returned (bl1_plat_get_next_image_id sample_platform_def
              (fun _ _ => 0x5A5A5A5B) sample_bl1_state)
  = Some 1.
Proof. reflexivity. Qed.

Example boot_mode_switch_on_2_halts :
  returned (boot_mode_switch sample_platform_def 2 2 sample_bl1_state) = None.
Proof. reflexivity. Qed.

Lemma bl1_plat_get_next_image_id_classifies_witness :
  exists halted : bl1_state,
    boot_mode_switch sample_platform_def 2 0x5A5A5A5A sample_bl1_state
    = Halts halted
    /\ trace (bl1_world halted)
       = [EvLog LOG_WARNING "Invalid boot mode is found:%d\n" [0x5A5A5A5A]]
    /\ bl1_tzram_layout halted = sample_layout.
Proof.
  destruct (bl1_plat_get_next_image_id_classifies
              sample_platform_def (fun _ _ => 0) sample_bl1_state)
    as (_ & _ & Hdefault).
  apply (Hdefault 2 0x5A5A5A5A sample_bl1_state); lia.
Defined.

Example early_setup_layout :
  bl1_tzram_layout
    (bl1_early_platform_setup sample_platform_def sample_bl1_state)
  = {| total_base := 0x1AC10000; total_size := 0x00188000;
       free_base := 0x1AC1C000; free_size := 0x0017C000 |}.
Proof. reflexivity. Qed.

(** A footprint strictly inside the free region costs more than its own
    size: 20 bytes reserved at 40 in [0, 100) leave [60, 100). *)
Example reserve_mem_strictly_inside : reserve_mem 0 100 40 20 = (60, 40).
Proof. reflexivity. Qed.

Example image_desc_without_sentinel :
  bl1_plat_get_image_desc sample_platform_def 5 7
    {| bl1_tzram_layout := sample_layout;
       bl1_tbbr_image_descs := [ {| image_id := 1; image_meta := 0 |} ];
       bl1_world := sample_world |}
  = Some ScanOutOfBounds.
Proof. reflexivity. Qed.

Lemma bl1_plat_get_image_desc_invalid_id_witness :
  bl1_plat_get_image_desc sample_platform_def 3 0xFFFFFFFF sample_bl1_state
  = Some (ScanReturns NULL).
Proof.
  destruct (bl1_plat_get_image_desc_invalid_id
              sample_platform_def sample_bl1_state) as [_ Hnull].
  apply (Hnull 2%nat 3%nat); [exact sample_first_sentinel|lia].
Defined.

Example get_bl31_params_zeroes_sample :
  bl31_params_mem (bl2_plat_get_bl31_params sample_bl2_state).2 = [0; 0; 0; 0].
Proof. reflexivity. Qed.

Lemma bl2_plat_get_bl31_params_zeroes_witness :
  bl31_params_mem
    (bl2_plat_get_bl31_params
       (bl2_populate [(0%nat, 0xAA); (3%nat, 0xBB)]
          (bl2_plat_get_bl31_params sample_bl2_state).2)).2
  = [0; 0; 0; 0].
Proof.
  destruct (bl2_plat_get_bl31_params_zeroes sample_bl2_state)
    as (_ & _ & _ & _ & _ & Hagain).
  destruct (Hagain [(0%nat, 0xAA); (3%nat, 0xBB)]) as [_ Hzero].
  exact Hzero.
Defined.

Example populate_stores_bytes :
  bl31_params_mem
    (bl2_populate [(0%nat, 0xAA); (3%nat, 0xBB)]
       (bl2_plat_get_bl31_params sample_bl2_state).2)
  = [0xAA; 0; 0; 0xBB].
Proof. reflexivity. Qed.

Example timer_init_still_polling :
  hikey960_timer_init sample_platform_def sample_device 2 sample_world = None.
Proof. reflexivity. Qed.

Example timer_init_sample_trace :
  option_map trace
    (hikey960_timer_init sample_platform_def sample_device 4 sample_world)
  = Some [EvMmioWrite 0xFFF35088 0x400000;
          EvMmioRead 0xFFF3508C 0x400000;
          EvMmioRead 0xFFF3508C 0x400000;
          EvMmioRead 0xFFF3508C 0x400000;
          EvMmioRead 0xFFF3508C 0;
          EvMmioWrite 0xFFF35010 0x400000;
          EvMmioRead 0xFFF35018 0x400000;
          EvSp804TimerInit 0xE8A00000 15625 512].
Proof. reflexivity. Qed.

Lemma hikey960_timer_init_terminates_iff_witness :
  (exists (fuel : nat) (w' : world),
      hikey960_timer_init sample_platform_def sample_device fuel sample_world
      = Some w')
  /\ (forall fuel : nat,
         hikey960_timer_init sample_platform_def stuck_device fuel sample_world
         = None).
Proof.
  split.
  - destruct (hikey960_timer_init_terminates_iff
                sample_platform_def sample_device sample_world)
      as [[_ Hreturns] _].
    apply Hreturns. exists 3%nat, 4%nat. split; [|split].
    + simpl. lia.
    + intros Hset. apply Hset. reflexivity.
    + vm_compute. discriminate.
  - destruct (hikey960_timer_init_terminates_iff
                sample_platform_def stuck_device sample_world)
      as [_ [Hstuck _]].
    apply Hstuck. intros t _. vm_compute. discriminate.
Defined.

Example platform_setup_sample_trace :
  option_map (fun s => trace (bl1_world s))
    (bl1_platform_setup sample_platform_def sample_device 3 sample_bl1_state)
  = Some [EvMmioWrite 0xFFF350B4 0xf0001000;
          EvMmioRead 0xFFF34430 0x400000;
          EvMmioWrite 0xFFF34430 0x400000;
          EvMmioWrite 0xFFF35088 0x400000;
          EvMmioRead 0xFFF3508C 0x400000;
          EvMmioRead 0xFFF3508C 0x400000;
          EvMmioRead 0xFFF3508C 0;
          EvMmioWrite 0xFFF35010 0x400000;
          EvMmioRead 0xFFF35018 0x400000;
          EvSp804TimerInit 0xE8A00000 15625 512;
          EvUfsInit NULL
            {| reg_base := 0xFF3B0000; desc_base := 0x20000000;
               desc_size := 0x00200000; flags := 2 |};
          EvIoSetup].
Proof. reflexivity. Qed.

Lemma bl1_platform_setup_order_witness :
  exists (fuel : nat) (s' : bl1_state),
    bl1_platform_setup sample_platform_def sample_device fuel sample_bl1_state
    = Some s'.
Proof.
  destruct (bl1_platform_setup_order
              sample_platform_def sample_device sample_bl1_state)
    as [_ Hreturns].
  apply (Hreturns 3%nat 4%nat).
  - simpl. lia.
  - intros Hset. apply Hset. reflexivity.
  - vm_compute. discriminate.
Defined.

(** * Further properties of the descriptor lookup *)

Section ImageDescScanSound.

Variable plat : platform_def.
Variable s : bl1_state.
Variable q : Z.

(** An entry the loop walks over: neither the sentinel nor the query. *)
Local Abbreviation skipped_at j :=
  (exists d : image_desc_t,
      bl1_tbbr_image_descs s !! j = Some d
      /\ image_id d <> uint32 (INVALID_IMAGE_ID plat)
      /\ image_id d <> q).

(** If every index an [unsigned int] can hold is walked over, the loop
    goes round and round. *)
Lemma image_desc_scan_all_skipped (fuel : nat) (index : Z) :
  (forall j : nat, Z.of_nat j < 2 ^ 32 -> skipped_at j) ->
  0 <= index < 2 ^ 32 ->
  image_desc_scan plat fuel index q s = None.
Proof.
  intros Hall. revert index.
  induction fuel as [|fuel IH]; intros index Hindex; [reflexivity|].
  cbn [image_desc_scan].
  destruct (Hall (Z.to_nat index)) as (d & Hd & Hns & Hnq); [lia|].
  rewrite Hd.
  destruct (Z.eqb_spec (image_id d) (uint32 (INVALID_IMAGE_ID plat)));
    [contradiction|].
  destruct (Z.eqb_spec (image_id d) q); [contradiction|].
  apply IH, uint32_range.
Qed.

Lemma image_desc_scan_sound_from (fuel k : nat) (p : pointer) :
  Z.of_nat k < 2 ^ 32 ->
  (forall j : nat, (j < k)%nat -> skipped_at j) ->
  image_desc_scan plat fuel (Z.of_nat k) q s = Some (ScanReturns p) ->
  p = NULL
  \/ exists (i : nat) (d : image_desc_t),
       p = AddrOfElement bl1_tbbr_image_descs_obj (Z.of_nat i)
       /\ Z.of_nat i < 2 ^ 32
       /\ bl1_tbbr_image_descs s !! i = Some d
       /\ image_id d = q
       /\ image_id d <> uint32 (INVALID_IMAGE_ID plat)
       /\ (forall j : nat, (j < i)%nat -> skipped_at j).
Proof.
  revert k. induction fuel as [|fuel IH]; intros k Hk Hinv; [discriminate|].
  cbn [image_desc_scan]. rewrite Nat2Z.id.
  destruct (bl1_tbbr_image_descs s !! k) as [d|] eqn:Hd; [|discriminate].
  destruct (Z.eqb_spec (image_id d) (uint32 (INVALID_IMAGE_ID plat)))
    as [Hs|Hns].
  { intros [= <-]. left. reflexivity. }
  destruct (Z.eqb_spec (image_id d) q) as [Hq|Hnq].
  { intros [= <-]. right. exists k, d. repeat split; assumption. }
  assert (Hinv' : forall j : nat, (j < S k)%nat -> skipped_at j).
  { intros j Hj. destruct (Nat.eq_dec j k) as [->|Hne].
    - exists d. auto.
    - apply Hinv. lia. }
  destruct (Z.eq_dec (Z.of_nat k + 1) (2 ^ 32)) as [Hwrap|Hnowrap].
  - rewrite Hwrap. change (uint32 (2 ^ 32)) with 0.
    rewrite image_desc_scan_all_skipped; [discriminate| |lia].
    intros j Hj. apply Hinv'. lia.
  - rewrite uint32_small by lia.
    replace (Z.of_nat k + 1) with (Z.of_nat (S k)) by lia.
    apply IH; [lia|exact Hinv'].
Qed.

End ImageDescScanSound.

(** X1.  Whatever the table holds and however long the loop runs, a
    pointer that [bl1_plat_get_image_desc] returns is [NULL] or the
    address of an entry inside the table whose [image_id] is the query and
    is not [INVALID_IMAGE_ID], and no entry before it is the sentinel or
    has the query's id. *)
Theorem bl1_plat_get_image_desc_sound
    (plat : platform_def) (s : bl1_state) (id : Z) (fuel : nat) (p : pointer) :
  bl1_plat_get_image_desc plat fuel id s = Some (ScanReturns p) ->
  p = NULL
  \/ exists (i : nat) (d : image_desc_t),
       p = AddrOfElement bl1_tbbr_image_descs_obj (Z.of_nat i)
       /\ (i < length (bl1_tbbr_image_descs s))%nat
       /\ bl1_tbbr_image_descs s !! i = Some d
       /\ image_id d = uint32 id
       /\ image_id d <> uint32 (INVALID_IMAGE_ID plat)
       /\ (forall (j : nat) (d' : image_desc_t),
              (j < i)%nat ->
              bl1_tbbr_image_descs s !! j = Some d' ->
              image_id d' <> uint32 (INVALID_IMAGE_ID plat)
              /\ image_id d' <> uint32 id).
Proof.
  unfold bl1_plat_get_image_desc. intros Hrun.
  change 0 with (Z.of_nat 0) in Hrun.
  apply image_desc_scan_sound_from in Hrun; [|lia|intros j Hj; lia].
  destruct Hrun as [->|(i & d & -> & _ & Hd & Hq & Hns & Hbefore)];
    [left; reflexivity|].
  right. exists i, d.
  split; [reflexivity|].
  split; [eapply lookup_lt_Some; exact Hd|].
  split; [exact Hd|]. split; [exact Hq|]. split; [exact Hns|].
  intros j d' Hj Hd'.
  destruct (Hbefore j Hj) as (d'' & Hd'' & Hns'' & Hnq'').
  split; congruence.
Qed.

Lemma bl1_plat_get_image_desc_sound_witness :
  AddrOfElement bl1_tbbr_image_descs_obj 1 = NULL
  \/ exists (i : nat) (d : image_desc_t),
       AddrOfElement bl1_tbbr_image_descs_obj 1
       = AddrOfElement bl1_tbbr_image_descs_obj (Z.of_nat i)
       /\ (i < length (bl1_tbbr_image_descs sample_bl1_state))%nat
       /\ bl1_tbbr_image_descs sample_bl1_state !! i = Some d
       /\ image_id d = uint32 21
       /\ image_id d <> uint32 (INVALID_IMAGE_ID sample_platform_def)
       /\ (forall (j : nat) (d' : image_desc_t),
              (j < i)%nat ->
              bl1_tbbr_image_descs sample_bl1_state !! j = Some d' ->
              image_id d' <> uint32 (INVALID_IMAGE_ID sample_platform_def)
              /\ image_id d' <> uint32 21).
Proof.
  apply (bl1_plat_get_image_desc_sound sample_platform_def sample_bl1_state
           21 3).
  reflexivity.
Defined.

(** X2.  The loop has no bound of its own: on a table shorter than 2^32
    entries in which no entry is the sentinel or has the query's id, the
    empty table included, [bl1_plat_get_image_desc] reads the element one
    past the end. *)
Theorem bl1_plat_get_image_desc_no_sentinel
    (plat : platform_def) (s : bl1_state) (id : Z) (fuel : nat) :
  Z.of_nat (length (bl1_tbbr_image_descs s)) < 2 ^ 32 ->
  (forall (j : nat) (d : image_desc_t),
      bl1_tbbr_image_descs s !! j = Some d ->
      image_id d <> uint32 (INVALID_IMAGE_ID plat)
      /\ image_id d <> uint32 id) ->
  (length (bl1_tbbr_image_descs s) < fuel)%nat ->
  bl1_plat_get_image_desc plat fuel id s = Some ScanOutOfBounds.
Proof.
  intros Hlen Hskip Hfuel. unfold bl1_plat_get_image_desc.
  set (n := length (bl1_tbbr_image_descs s)) in *.
  replace fuel with (n + S (fuel - S n))%nat by lia.
  change 0 with (Z.of_nat 0).
  rewrite image_desc_scan_skip.
  - cbn [image_desc_scan]. rewrite Nat2Z.id.
    rewrite (lookup_ge_None_2 (bl1_tbbr_image_descs s) (0 + n));
      [reflexivity|subst n; simpl; lia].
  - simpl. exact Hlen.
  - subst n. simpl. lia.
  - intros j d _ Hd. apply (Hskip j d Hd).
Qed.

Lemma bl1_plat_get_image_desc_no_sentinel_witness :
  bl1_plat_get_image_desc sample_platform_def 3 7 sample_bl1_state_no_sentinel
  = Some ScanOutOfBounds.
Proof.
  apply bl1_plat_get_image_desc_no_sentinel.
  - simpl. lia.
  - intros j d Hd.
    destruct j as [|[|j]]; simpl in Hd; [| |discriminate];
      injection Hd as <-; split; discriminate.
  - simpl. lia.
Defined.

Section ImageDescScanPrefix.

Variable plat : platform_def.
Variables s1 s2 : bl1_state.
Variable n : nat.
Variable sentinel : image_desc_t.

Hypothesis Hrange : Z.of_nat n < 2 ^ 32.
Hypothesis Hsentinel : bl1_tbbr_image_descs s1 !! n = Some sentinel.
Hypothesis Hinvalid : image_id sentinel = uint32 (INVALID_IMAGE_ID plat).
Hypothesis Hagree :
  forall j : nat, (j <= n)%nat ->
                  bl1_tbbr_image_descs s1 !! j = bl1_tbbr_image_descs s2 !! j.

Lemma image_desc_scan_prefix (q : Z) (fuel k : nat) :
  (k <= n)%nat ->
  image_desc_scan plat fuel (Z.of_nat k) q s1
  = image_desc_scan plat fuel (Z.of_nat k) q s2.
Proof.
  revert k. induction fuel as [|fuel IH]; intros k Hk; [reflexivity|].
  cbn [image_desc_scan]. rewrite Nat2Z.id, <- (Hagree k Hk).
  destruct (bl1_tbbr_image_descs s1 !! k) as [d|] eqn:Hd; [|reflexivity].
  destruct (Z.eqb_spec (image_id d) (uint32 (INVALID_IMAGE_ID plat)))
    as [Hs|Hns]; [reflexivity|].
  destruct (Z.eqb_spec (image_id d) q); [reflexivity|].
  assert (k <> n) by (intros ->; congruence).
  rewrite uint32_small by lia.
  replace (Z.of_nat k + 1) with (Z.of_nat (S k)) by lia.
  apply IH. lia.
Qed.

End ImageDescScanPrefix.

(** X3.  Entries after a sentinel are never read: two tables that agree
    up to and including a sentinel, at an index below 2^32, give the same
    result for every query and every length of run. *)
Theorem bl1_plat_get_image_desc_ignores_tail
    (plat : platform_def) (s1 s2 : bl1_state) (n : nat)
    (sentinel : image_desc_t) (id : Z) (fuel : nat) :
  Z.of_nat n < 2 ^ 32 ->
  bl1_tbbr_image_descs s1 !! n = Some sentinel ->
  image_id sentinel = uint32 (INVALID_IMAGE_ID plat) ->
  (forall j : nat, (j <= n)%nat ->
                   bl1_tbbr_image_descs s1 !! j = bl1_tbbr_image_descs s2 !! j) ->
  bl1_plat_get_image_desc plat fuel id s1
  = bl1_plat_get_image_desc plat fuel id s2.
Proof.
  intros Hrange Hsentinel Hinvalid Hagree. unfold bl1_plat_get_image_desc.
  change 0 with (Z.of_nat 0).
  eapply image_desc_scan_prefix; try eassumption. lia.
Qed.

Lemma bl1_plat_get_image_desc_ignores_tail_witness :
  bl1_plat_get_image_desc sample_platform_def 9 7 sample_bl1_state
  = bl1_plat_get_image_desc sample_platform_def 9 7 sample_bl1_state_with_tail.
Proof.
  apply (bl1_plat_get_image_desc_ignores_tail sample_platform_def
           sample_bl1_state sample_bl1_state_with_tail 2
           {| image_id := 0xFFFFFFFF; image_meta := 0 |}).
  - simpl. lia.
  - reflexivity.
  - reflexivity.
  - intros j Hj. destruct j as [|[|[|j]]]; [reflexivity..|lia].
Defined.

(** * Further properties of the hardware bring-up *)

Lemma uint32_testbit (z i : Z) :
  0 <= i -> Z.testbit (uint32 z) i = (i <? 32) && Z.testbit z i.
Proof.
  intros Hi. unfold uint32.
  destruct (Z.ltb_spec i 32).
  - rewrite Z.mod_pow2_bits_low by lia. reflexivity.
  - rewrite Z.mod_pow2_bits_high by lia. reflexivity.
Qed.

(** X4.  [hikey960_pmu_init] is one read-modify-write of
    PMIC_CLK_TOP_CTRL7: it reads the register once and writes back to the
    same address the value read with the bits of [NP_XO_ABB_DIG] cleared
    and every other bit as it was read. *)
Theorem hikey960_pmu_init_clears_bits
    (plat : platform_def) (hw : device) (w : world) :
  let ctrl7 := uint64 (PMU_SSI0_REG_BASE plat
                       + PMU_SSI0_CLK_TOP_CTRL7_OFFSET plat) in
  let value := uint32 (hw (reads w) ctrl7) in
  exists written : Z,
    hikey960_pmu_init plat hw w
    = {| ram := ram w;
         trace := trace w ++ [EvMmioRead ctrl7 value;
                              EvMmioWrite ctrl7 written];
         reads := S (reads w) |}
    /\ 0 <= written < 2 ^ 32
    /\ (forall i : Z,
           0 <= i ->
           Z.testbit written i
           = Z.testbit value i && negb (Z.testbit (NP_XO_ABB_DIG plat) i)).
Proof.
  intros ctrl7 value.
  exists (uint32 (Z.land value (Z.lnot (NP_XO_ABB_DIG plat)))).
  split; [|split].
  - unfold hikey960_pmu_init, mmio_clrbits_32, mmio_read_32, mmio_write_32,
      emit.
    cbn [ram trace reads]. rewrite <- app_assoc. reflexivity.
  - apply uint32_range.
  - intros i Hi.
    rewrite uint32_testbit, Z.land_spec, Z.lnot_spec by lia.
    subst value. rewrite uint32_testbit by lia.
    destruct (i <? 32); reflexivity.
Qed.

Lemma odd_uint32 (z : Z) : Z.odd (uint32 z) = Z.odd z.
Proof.
  rewrite <- !Z.bit0_odd. rewrite uint32_testbit by lia. reflexivity.
Qed.

(** X5.  [bl1_plat_get_next_image_id] never takes the [panic] branch.
    It returns [BL2_IMAGE_ID] when the register holds an odd value and
    [BL2U_IMAGE_ID] when it holds an even one, reads the register exactly
    once, and changes nothing else. *)
Theorem bl1_plat_get_next_image_id_returns
    (plat : platform_def) (hw : device) (s : bl1_state) :
  let addr := uint64 (SCTRL_REG_BASE plat + SCTRL_BAK_DATA0_OFFSET plat) in
  let register := hw (reads (bl1_world s)) addr in
  bl1_plat_get_next_image_id plat hw s
  = Returns
      (uint32 (if Z.odd register then BL2_IMAGE_ID plat
               else BL2U_IMAGE_ID plat))
      {| bl1_tzram_layout := bl1_tzram_layout s;
         bl1_tbbr_image_descs := bl1_tbbr_image_descs s;
         bl1_world :=
           {| ram := ram (bl1_world s);
              trace := trace (bl1_world s)
                       ++ [EvMmioRead addr (uint32 register)];
              reads := S (reads (bl1_world s)) |} |}.
Proof.
  intros addr register.
  unfold bl1_plat_get_next_image_id, mmio_read_32, bl1_with_world.
  cbn [bl1_tzram_layout bl1_tbbr_image_descs bl1_world].
  fold addr. fold register.
  unfold BOOT_MODE_MASK. rewrite land_1_mod_2.
  rewrite <- (odd_uint32 register).
  rewrite Zmod_odd.
  unfold boot_mode_switch, BOOT_MODE_RECOVERY, BOOT_MODE_NORMAL.
  destruct (Z.odd (uint32 register)); reflexivity.
Qed.

Section PollExact.

Variable hw : device.
Variable again : Z -> bool.
Variable addr : Z.

Local Abbreviation seen n := (uint32 (hw n (uint64 addr))).

(** The reads a loop performs, from read [from] on. *)
Local Abbreviation read_events from count :=
  (map (fun t : nat => EvMmioRead (uint64 addr) (seen t)) (seq from count)).

(** A loop that has ended has performed exactly the reads up to the
    first one that fails the loop condition. *)
Lemma poll_exact (fuel : nat) (w w' : world) :
  poll hw again addr fuel w = Some w' ->
  exists k : nat,
    (k < fuel)%nat
    /\ (forall j : nat, (j < k)%nat -> again (seen (reads w + j)%nat) = true)
    /\ again (seen (reads w + k)%nat) = false
    /\ w' = {| ram := ram w;
               trace := trace w ++ read_events (reads w) (S k);
               reads := (reads w + S k)%nat |}.
Proof.
  revert w. induction fuel as [|fuel IH]; intros w; [discriminate|].
  cbn [poll]. unfold mmio_read_32.
  destruct (again (seen (reads w))) eqn:Hagain.
  - intros Hpoll. apply IH in Hpoll.
    destruct Hpoll as (k & Hk & Hbefore & Hlast & ->).
    cbn [reads trace ram] in *.
    exists (S k). split; [lia|]. split; [|split].
    + intros [|j] Hj.
      * rewrite Nat.add_0_r. exact Hagain.
      * replace (reads w + S j)%nat with (S (reads w) + j)%nat by lia.
        apply Hbefore. lia.
    + replace (reads w + S (S k))%nat with (S (reads w) + S k)%nat by lia.
      replace (reads w + S k)%nat with (S (reads w) + k)%nat by lia.
      exact Hlast.
    + f_equal; [|lia].
      rewrite <- app_assoc. reflexivity.
  - intros [= <-]. exists 0%nat. split; [lia|]. split; [|split].
    + intros j Hj. lia.
    + rewrite Nat.add_0_r. exact Hagain.
    + f_equal. lia.
Qed.

End PollExact.

(** X6.  A completed [hikey960_timer_init] has polled the reset status
    up to the first read that shows the TIMER9 bit clear, then written the
    enable register, then polled the enable status from the very next read
    up to the first one that shows the bit set, and called the SP804
    driver; it has read nothing else, and every value in the trace is the
    device's answer. *)
Theorem hikey960_timer_init_first_reads
    (plat : platform_def) (hw : device) (fuel : nat) (w w' : world) :
  let rstdis := uint64 (CRG_REG_BASE plat + CRG_PERRSTDIS1_OFFSET plat) in
  let rststat := uint64 (CRG_REG_BASE plat + CRG_PERRSTSTAT1_OFFSET plat) in
  let peren := uint64 (CRG_REG_BASE plat + CRG_PEREN1_OFFSET plat) in
  let perstat := uint64 (CRG_REG_BASE plat + CRG_PERSTAT1_OFFSET plat) in
  hikey960_timer_init plat hw fuel w = Some w' ->
  exists t1 t2 : nat,
    (reads w <= t1 < t2)%nat
    /\ (forall t : nat, (reads w <= t < t1)%nat ->
                        timer9_bit_set plat (hw t rststat))
    /\ ~ timer9_bit_set plat (hw t1 rststat)
    /\ (forall t : nat, (t1 < t < t2)%nat ->
                        ~ timer9_bit_set plat (hw t perstat))
    /\ timer9_bit_set plat (hw t2 perstat)
    /\ reads w' = S t2
    /\ ram w' = ram w
    /\ trace w'
       = trace w
         ++ [EvMmioWrite rstdis (uint32 (PERI_TIMER9_BIT plat))]
         ++ map (fun t : nat => EvMmioRead rststat (uint32 (hw t rststat)))
              (seq (reads w) (S t1 - reads w))
         ++ [EvMmioWrite peren (uint32 (PERI_TIMER9_BIT plat))]
         ++ map (fun t : nat => EvMmioRead perstat (uint32 (hw t perstat)))
              (seq (S t1) (t2 - t1))
         ++ [EvSp804TimerInit (uint64 (TIMER9_REG_BASE plat)) 15625 512].
Proof.
  intros rstdis rststat peren perstat.
  unfold hikey960_timer_init.
  destruct (poll hw (timer9_in_reset plat) _ fuel _) as [w2|] eqn:Hloop1;
    [|discriminate].
  destruct (poll hw (timer9_disabled plat) _ fuel _) as [w4|] eqn:Hloop2;
    [|discriminate].
  intros [= <-].
  apply poll_exact in Hloop1.
  destruct Hloop1 as (k1 & _ & Hbefore1 & Hstop1 & ->).
  apply poll_exact in Hloop2.
  destruct Hloop2 as (k2 & _ & Hbefore2 & Hstop2 & ->).
  cbn [mmio_write_32 emit reads trace ram] in *.
  fold rststat in Hbefore1, Hstop1. fold perstat in Hbefore2, Hstop2.
  exists (reads w + k1)%nat, (reads w + S k1 + k2)%nat.
  split; [lia|]. split; [|split; [|split; [|split; [|split; [|split]]]]].
  - intros t Ht.
    specialize (Hbefore1 (t - reads w)%nat ltac:(lia)).
    replace (reads w + (t - reads w))%nat with t in Hbefore1 by lia.
    intros Hzero. unfold timer9_in_reset in Hbefore1.
    rewrite Hzero in Hbefore1. discriminate.
  - apply timer9_in_reset_false. exact Hstop1.
  - intros t Ht.
    specialize (Hbefore2 (t - (reads w + S k1))%nat ltac:(lia)).
    replace (reads w + S k1 + (t - (reads w + S k1)))%nat with t
      in Hbefore2 by lia.
    intros Hset. apply timer9_disabled_false in Hset. congruence.
  - apply timer9_disabled_false. exact Hstop2.
  - unfold sp804_timer_init, emit; cbn [reads]. lia.
  - reflexivity.
  - unfold sp804_timer_init, emit; cbn [trace].
    replace (S (reads w + k1) - reads w)%nat with (S k1) by lia.
    replace (reads w + S k1 + k2 - (reads w + k1))%nat with (S k2) by lia.
    replace (S (reads w + k1)) with (reads w + S k1)%nat by lia.
    rewrite <- !app_assoc. reflexivity.
Qed.

Lemma hikey960_timer_init_first_reads_witness :
  exists w' : world,
    hikey960_timer_init sample_platform_def sample_device 4 sample_world
    = Some w'
    /\ exists t1 t2 : nat,
         (reads sample_world <= t1 < t2)%nat /\ reads w' = S t2.
Proof.
  eexists. split; [reflexivity|].
  destruct (hikey960_timer_init_first_reads
              sample_platform_def sample_device 4 sample_world _ eq_refl)
    as (t1 & t2 & Ht & _ & _ & _ & _ & Hreads & _).
  exists t1, t2. split; [exact Ht|exact Hreads].
Defined.

(** ** The memory layout handed to the MMU setup *)


(** * Further properties of the BL2 hooks *)

(** X9.  [bl2_early_platform_setup] and [bl2_plat_get_bl31_params] act
    on separate parts of the state: in either order they return the same
    pointer and end in the same state, with the block zeroed and one
    console event added. *)
Theorem bl2_early_setup_commutes_with_get_bl31_params
    (plat : platform_def) (mem_layout : Z) (s : bl2_state) :
  let early := bl2_early_platform_setup plat mem_layout in
  bl2_plat_get_bl31_params (early s)
  = ((bl2_plat_get_bl31_params s).1, early (bl2_plat_get_bl31_params s).2)
  /\ bl31_params_mem (bl2_plat_get_bl31_params (early s)).2
     = replicate (length (bl31_params_mem s)) 0.
Proof.
  intros early. subst early. split.
  - reflexivity.
  - unfold bl2_plat_get_bl31_params, bl2_early_platform_setup,
      sizeof_bl2_to_bl31_params_mem_t.
    cbn [snd bl2_with_world bl2_with_params_mem bl31_params_mem].
    apply memset_whole.
Qed.

Lemma hikey960_timer_init_unbounded_witness :
  hikey960_timer_init sample_platform_def
    (late_device sample_platform_def (reads sample_world + 5)) 5 sample_world
  = None
  /\ exists (fuel : nat) (w' : world),
       hikey960_timer_init sample_platform_def
         (late_device sample_platform_def (reads sample_world + 5)) fuel
         sample_world
       = Some w'.
Proof.
  apply (hikey960_timer_init_unbounded sample_platform_def sample_world 5).
  vm_compute. discriminate.
Defined.
